(** * azure-ad-token-validator: a shallow embedding of the validation pipeline

    Sources embedded here:
    - [src/SimpleValidator.ts]        : [validateRules]
    - [src/SimpleCache.ts]            : [getItem], [setItem]
    - [src/AzureAdTokenValidator.ts]  : [constructor], [loadMetadata],
      [validate], [getPublicKey], [validateAdditionalClaims],
      [throwFormattedError]

    Modelling conventions.
    - An optional property ([kid?: string], [scp?: string], a missing option
      of the configuration object) is an [option]; [None] is JavaScript's
      [undefined] (or [null] for [this.metadata]).
    - Property values have the types their TypeScript declarations give
      them, with one exception: [decode] returns whatever header the token
      carries, so [header.alg] may be undefined.
    - The record [memoryCache] of [SimpleCache] is a plain object.  Its own
      properties are a [gmap string _]; what it inherits from
      [Object.prototype] matters in two places, both modelled: assigning to
      [__proto__] runs the inherited setter and creates no own property, and
      an own property [hasOwnProperty] shadows the method [getItem] calls.
      Cached values are strings or objects with the declared fields only.
    - [axios.get], [decode] and [verify] are external; they are parameters of
      the development.  Every call to [axios.get] and to [verify] is recorded
      in a trace, so that statements can speak about what was fetched and
      what the verifier was called with.
    - [async]/[await] is sequential composition: one call runs at a time. *)

From stdpp Require Import gmap strings list.
From Stdlib Require Import Ascii String ZArith Lia.

Local Open Scope string_scope.
Local Open Scope Z_scope.

(** ** JavaScript string helpers *)

Module Js.

(** The characters that cannot be written inside a literal. *)
Definition dquote : string := String "034"%char EmptyString.
Definition newline : string := String "010"%char EmptyString.
Definition space : ascii := " "%char.

(** [!!s] for a value of type [string | undefined]: [undefined] and the
    empty string are falsy, every other string is truthy. *)
Definition truthy (v : option string) : bool :=
  match v with
  | None => false
  | Some s => negb (String.eqb s EmptyString)
  end.

(** [a || b] on values of type [string | undefined]. *)
Definition or (a b : option string) : option string :=
  if truthy a then a else b.

(** [`${v}`]: how a template literal renders a [string | undefined]. *)
Definition template (v : option string) : string :=
  match v with
  | None => "undefined"
  | Some s => s
  end.

(** [s.indexOf(pat)]: position of the first occurrence, or [-1]. *)
Definition indexOf (s pat : string) : Z :=
  match String.index 0 pat s with
  | Some n => Z.of_nat n
  | None => -1
  end.

(** [s.split(" ")] for a one-character separator: the pieces between the
    separators, so that the empty string yields one empty piece. *)
Fixpoint split (sep : ascii) (s : string) : list string :=
  match s with
  | EmptyString => [EmptyString]
  | String c s' =>
      if Ascii.eqb c sep then EmptyString :: split sep s'
      else match split sep s' with
           | [] => [String c EmptyString]
           | piece :: pieces => String c piece :: pieces
           end
  end.

(** [xs.join(sep)], the inverse of [split]. *)
Fixpoint join (sep : ascii) (xs : list string) : string :=
  match xs with
  | [] => EmptyString
  | [x] => x
  | x :: rest => x +:+ String sep (join sep rest)
  end.

(** [s.includes(c)] for a character [c]. *)
Fixpoint contains (c : ascii) (s : string) : bool :=
  match s with
  | EmptyString => false
  | String d s' => Ascii.eqb d c || contains c s'
  end.

(** [xs.includes(x)] on an array of strings. *)
Definition includes (xs : list string) (x : string) : bool :=
  existsb (String.eqb x) xs.

(** [xs.every(p)]. *)
Definition every {A} (p : A -> bool) (xs : list A) : bool := forallb p xs.

(** [a === b] on values of type [string | undefined]. *)
Definition strict_eq (a b : option string) : bool :=
  match a, b with
  | None, None => true
  | Some x, Some y => String.eqb x y
  | _, _ => false
  end.

(** [xs.indexOf(x)] on an array of strings, for [x : string | undefined]:
    the first index holding a value strictly equal to [x], or [-1]. *)
Fixpoint arrayIndexOf (xs : list string) (x : option string) : Z :=
  match xs with
  | [] => -1
  | y :: ys =>
      if strict_eq (Some y) x then 0
      else let i := arrayIndexOf ys x in if i <? 0 then -1 else i + 1
  end.

End Js.

(** ** [SimpleValidator.ts] *)

Record SimpleValidationRule (T : Type) := {
  rule_validate : T -> bool;
  invalidMessage : string
}.
Arguments rule_validate {T} _ _.
Arguments invalidMessage {T} _.

Record SimpleValidationResult := {
  sv_isValid : bool;
  sv_validationMessage : option string
}.

(** The [for ... of] loop with its [break]: the first rule that rejects the
    value decides the result, and the rules after it are not looked at. *)
Fixpoint validateRules {T} (value : T) (rules : list (SimpleValidationRule T))
  : SimpleValidationResult :=
  match rules with
  | [] => {| sv_isValid := true; sv_validationMessage := None |}
  | rule :: rest =>
      if negb (rule_validate rule value)
      then {| sv_isValid := false;
              sv_validationMessage := Some (invalidMessage rule) |}
      else validateRules value rest
  end.

(** ** Thrown values and completions

    [TypeError] is the error the JavaScript engine itself throws: calling
    something that is not a function, reading a property of [undefined]. *)

(** [{ data, status }] of an axios response or request. *)
Record HttpInfo := {
  data : string;
  status : Z
}.

Inductive Thrown :=
| AxiosError (message : string) (response request : option HttpInfo)
| JsonWebTokenError (message : string)
| Error (message : string)
| TypeError (message : string)
| ThrownString (s : string)
| ThrownOther.

Definition isAxiosError (error : Thrown) : bool :=
  match error with AxiosError _ _ _ => true | _ => false end.

Definition instanceofError (error : Thrown) : bool :=
  match error with
  | AxiosError _ _ _ | JsonWebTokenError _ | Error _ | TypeError _ => true
  | ThrownString _ | ThrownOther => false
  end.

Definition instanceofJsonWebTokenError (error : Thrown) : bool :=
  match error with JsonWebTokenError _ => true | _ => false end.

Definition error_message (error : Thrown) : string :=
  match error with
  | AxiosError m _ _ | JsonWebTokenError m | Error m | TypeError m => m
  | ThrownString _ | ThrownOther => EmptyString
  end.

(** How an evaluation ends: with a value, or by throwing. *)
Inductive Completion (A : Type) :=
| Return (a : A)
| Throw (e : Thrown).
Arguments Return {A} a.
Arguments Throw {A} e.

(** The value of a normal completion. *)
Definition completion_value {A} (c : Completion A) : option A :=
  match c with
  | Return a => Some a
  | Throw _ => None
  end.

(** ** [SimpleCache.ts] *)

Module SimpleCache.
Section Cache.
Context {T : Type}.

(** [memoryCache.hasOwnProperty] is the method of [Object.prototype] unless
    the object has an own property of that name. *)
Definition shadowed (memoryCache : gmap string T) : bool :=
  bool_decide (is_Some (memoryCache !! "hasOwnProperty")).

(** [this.memoryCache.hasOwnProperty(key) ? this.memoryCache[key] :
    undefined].  With the method shadowed by a cached value the call is a
    call of something that is not a function. *)
Definition getItem (memoryCache : gmap string T) (key : string)
  : Completion (option T) :=
  if shadowed memoryCache
  then Throw (TypeError "this.memoryCache.hasOwnProperty is not a function")
  else Return (memoryCache !! key).

(** [this.memoryCache[key] = value].  For the key [__proto__] the assignment
    reaches the setter inherited from [Object.prototype], which stores no
    own property, unless the object already has an own property of that
    name. *)
Definition setItem (memoryCache : gmap string T) (key : string) (value : T)
  : gmap string T :=
  if String.eqb key "__proto__"
  then match memoryCache !! "__proto__" with
       | Some _ => <[key := value]> memoryCache
       | None => memoryCache
       end
  else <[key := value]> memoryCache.
End Cache.
End SimpleCache.

(** ** Data model of [AzureAdTokenValidator.ts] *)

Record AzureAdTokenValidationOptions := {
  tenantId : option string;
  audience : option string;
  metadataDocumentUri : option string;
  allowedApplicationIds : option (list string);
  roles : option (list string);
  requiredScopes : option (list string);
  validIssuers : option (list string)
}.

(** [alg] is what the token's header declares; a header without [alg]
    decodes as well. *)
Record AzureAdTokenHeader := {
  alg : option string;
  header_kid : option string
}.

(** The claims of the payload that the code reads; other claims are carried
    by the token but never inspected. *)
Record AzureAdTokenPayload := {
  appid : option string;
  azp : option string;
  scp : option string;
  tid : option string
}.

Record AzureAdToken := {
  header : AzureAdTokenHeader;
  payload : AzureAdTokenPayload;
  signature : string
}.

Record AzureAdTokenValidationResult := {
  accessToken : string;
  decodedAccessToken : option AzureAdToken;
  isValid : bool;
  validationMessage : option string
}.

Record AzureAdOpenIdConnectMetadataDocument := {
  jwks_uri : string
}.

Record AzureAdKeyValue := {
  kid : string;
  use : string;
  x5t : string;
  x5c : list string
}.

Record AzureAdOpenIdConnectMetadataKeysDocument := {
  keys : list AzureAdKeyValue
}.

(** The options object handed to [verify]. *)
Record VerifyOptions := {
  algorithms : list string;
  verify_audience : option string;
  issuer : option (list string)
}.

(** ** State, trace and the monad of the pipeline *)

Inductive Event :=
| EvGet (url : option string)
| EvVerify (token : string) (secretOrPublicKey : option string)
           (options : VerifyOptions).

Definition is_fetch (e : Event) : bool :=
  match e with EvGet _ => true | EvVerify _ _ _ => false end.

(** Number of network fetches recorded in a trace. *)
Definition fetch_count (t : list Event) : nat :=
  List.length (List.filter is_fetch t).

Record AzureAdTokenValidator := {
  options : AzureAdTokenValidationOptions;
  metadata : option AzureAdOpenIdConnectMetadataDocument
}.

(** [this] is the validator instance the method runs on; [cache] is the
    module-level [const cache], shared by all instances; [trace] lists the
    external calls so far, oldest first. *)
Record State := {
  this : AzureAdTokenValidator;
  cache : gmap string AzureAdKeyValue;
  trace : list Event
}.

Definition M (A : Type) : Type := State -> Completion A * State.

Definition ret {A} (a : A) : M A := fun s => (Return a, s).

Definition throw {A} (e : Thrown) : M A := fun s => (Throw e, s).

Definition bind {A B} (m : M A) (k : A -> M B) : M B :=
  fun s =>
    match m s with
    | (Return a, s') => k a s'
    | (Throw e, s') => (Throw e, s')
    end.

(** [try { m } catch (error) { handler(error) }] *)
Definition try_catch {A} (m : M A) (handler : Thrown -> M A) : M A :=
  fun s =>
    match m s with
    | (Return a, s') => (Return a, s')
    | (Throw e, s') => handler e s'
    end.

Notation "'let*' x ':=' m 'in' k" := (bind m (fun x => k))
  (at level 10, x name, m at level 100, k at level 200).
Notation "m ';;' k" := (bind m (fun _ => k))
  (at level 100, k at level 200, right associativity).

Definition get_this : M AzureAdTokenValidator := fun s => (Return (this s), s).

Definition set_this (v : AzureAdTokenValidator) : M unit :=
  fun s => (Return tt, {| this := v; cache := cache s; trace := trace s |}).

Definition set_metadata (d : AzureAdOpenIdConnectMetadataDocument) : M unit :=
  fun s => (Return tt,
            {| this := {| options := options (this s); metadata := Some d |};
               cache := cache s; trace := trace s |}).

Definition cache_getItem (key : string) : M (option AzureAdKeyValue) :=
  fun s => (SimpleCache.getItem (cache s) key, s).

Definition cache_setItem (key : string) (value : AzureAdKeyValue) : M unit :=
  fun s => (Return tt,
            {| this := this s;
               cache := SimpleCache.setItem (cache s) key value;
               trace := trace s |}).

Definition log (e : Event) : M unit :=
  fun s => (Return tt,
            {| this := this s; cache := cache s; trace := trace s ++ [e] |}).

Definition get_trace : M (list Event) := fun s => (Return (trace s), s).

(** [for (const x of xs) { body(x) }] *)
Fixpoint for_of {A} (xs : list A) (body : A -> M unit) : M unit :=
  match xs with
  | [] => ret tt
  | x :: rest => body x ;; for_of rest body
  end.

(** ** The external primitives *)

(** What the environment answers: the HTTP client of [axios.get] (for the
    discovery document and for the key set), [decode] and [verify] of
    [jsonwebtoken], and [JSON.stringify] on [{ data, status }].  The HTTP
    client and the verifier (which reads the clock) may answer differently
    from one call to the next: they see the calls made so far. *)
Record Externals := {
  http_metadata :
    list Event -> option string ->
    Completion AzureAdOpenIdConnectMetadataDocument;
  http_keys :
    list Event -> string -> Completion AzureAdOpenIdConnectMetadataKeysDocument;
  jwt_decode : string -> option AzureAdToken;
  jwt_verify :
    list Event -> string -> option string -> VerifyOptions -> option Thrown;
  JSON_stringify : HttpInfo -> string
}.

(** ** [validateAdditionalClaims] *)

Definition tenantRule (tenantId : option string)
  : SimpleValidationRule AzureAdTokenPayload :=
  {| rule_validate := fun tokenPayload =>
       Js.truthy (tid tokenPayload) && Js.strict_eq (tid tokenPayload) tenantId;
     invalidMessage := "tenantId does not match" |}.

Definition applicationRule (allowedApplicationIds : option (list string))
  : SimpleValidationRule AzureAdTokenPayload :=
  {| rule_validate := fun tokenPayload =>
       match allowedApplicationIds with
       | None => true
       | Some ids =>
           (Z.of_nat (List.length ids) =? 0)
           || (Js.truthy (Js.or (azp tokenPayload) (appid tokenPayload))
               && (0 <=? Js.arrayIndexOf ids
                           (Js.or (azp tokenPayload) (appid tokenPayload))))
       end;
     invalidMessage := "authenticated applicationId not in allowed list" |}.

(** [tokenPayload.scp?.split(" ") || []]: an array is always truthy, so the
    right operand is taken only when [scp] is undefined. *)
Definition scopesAsArray (tokenPayload : AzureAdTokenPayload) : list string :=
  match scp tokenPayload with
  | None => []
  | Some s => Js.split Js.space s
  end.

Definition scopesRule (requiredScopes : option (list string))
  : SimpleValidationRule AzureAdTokenPayload :=
  {| rule_validate := fun tokenPayload =>
       match requiredScopes with
       | None => true
       | Some required =>
           (Z.of_nat (List.length required) =? 0)
           || Js.every (fun s => Js.includes (scopesAsArray tokenPayload) s)
                       required
       end;
     invalidMessage := "required scopes missing" |}.

Definition validateAdditionalClaims (tokenPayload : AzureAdTokenPayload)
    (opts : AzureAdTokenValidationOptions) : SimpleValidationResult :=
  let validators :=
    [ tenantRule (tenantId opts);
      applicationRule (allowedApplicationIds opts);
      scopesRule (requiredScopes opts) ] in
  validateRules tokenPayload validators.

(** ** The validator *)

(** [new AzureAdTokenValidator(options)], run on the fresh object [this]:
    the field initialiser [metadata = null], the assignment of [options],
    then the two guards. *)
Definition constructor (opts : AzureAdTokenValidationOptions) : M unit :=
  set_this {| options := opts; metadata := None |} ;;
  let* this_ := get_this in
  if negb (Js.truthy (tenantId (options this_))) then
    throw (Error (Js.dquote +:+ "tenantId" +:+ Js.dquote
                  +:+ " value was not provided"))
  else if negb (Js.truthy (audience (options this_))) then
    throw (Error (Js.dquote +:+ "audience" +:+ Js.dquote
                  +:+ " value was not provided"))
  else ret tt.

Section Pipeline.
Variable ext : Externals.

(** Every path of [throwFormattedError] ends in a [throw new Error(..)];
    [formattedError] is the error object thrown.  [new Error(undefined)]
    has the empty message. *)
Definition formattedError (error : Thrown)
    (defaultErrorMessage : option string) : Thrown :=
  match error with
  | AxiosError _ (Some response) _ => Error (JSON_stringify ext response)
  | AxiosError _ None (Some request) => Error (JSON_stringify ext request)
  | _ =>
      if instanceofError error then Error (error_message error)
      else match error with
           | ThrownString s => Error s
           | _ => Error (default EmptyString defaultErrorMessage)
           end
  end.

Definition throwFormattedError {A} (error : Thrown)
    (defaultErrorMessage : option string) : M A :=
  throw (formattedError error defaultErrorMessage).

(** [await axios.get<Document>(uri)] on the discovery endpoint. *)
Definition axios_get_metadata (uri : option string)
  : M AzureAdOpenIdConnectMetadataDocument :=
  let* history := get_trace in
  log (EvGet uri) ;;
  match http_metadata ext history uri with
  | Return d => ret d
  | Throw e => throw e
  end.

(** [await axios.get<KeysDocument>(url)] on the keys endpoint. *)
Definition axios_get_keys (url : string)
  : M AzureAdOpenIdConnectMetadataKeysDocument :=
  let* history := get_trace in
  log (EvGet (Some url)) ;;
  match http_keys ext history url with
  | Return d => ret d
  | Throw e => throw e
  end.

(** [verify(token, secretOrPublicKey, options)]: returns or throws. *)
Definition verify (token : string) (secretOrPublicKey : option string)
    (opts : VerifyOptions) : M unit :=
  let* history := get_trace in
  log (EvVerify token secretOrPublicKey opts) ;;
  match jwt_verify ext history token secretOrPublicKey opts with
  | None => ret tt
  | Some e => throw e
  end.

Definition loadMetadata : M unit :=
  try_catch
    (let* this_ := get_this in
     let* d := axios_get_metadata (metadataDocumentUri (options this_)) in
     set_metadata d)
    (fun error => throwFormattedError error None).

(** [`${this.metadata?.jwks_uri}?appid=${appId}`] *)
Definition keysUrl (this_ : AzureAdTokenValidator) (appId : option string)
  : string :=
  Js.template (jwks_uri <$> metadata this_) +:+ "?appid="
  +:+ Js.template appId.

Definition getPublicKey (jwt : AzureAdToken)
  : M (option AzureAdKeyValue) :=
  let header := header jwt in
  let payload := payload jwt in
  match header_kid header with
  | None => ret None
  | Some hkid =>
      if negb (Js.truthy (Some hkid)) then ret None
      else
        let* cachedKey := cache_getItem hkid in
        match cachedKey with
        | Some cachedKey => ret (Some cachedKey)
        | None =>
            let appId := Js.or (azp payload) (appid payload) in
            try_catch
              (let* this_ := get_this in
               let* d := axios_get_keys (keysUrl this_ appId) in
               for_of (keys d)
                 (fun publicKey => cache_setItem hkid publicKey))
              (fun error =>
                 throwFormattedError error
                   (Some "Error connecting to discovery keys endpoint")) ;;
            cache_getItem hkid
        end
  end.

(** [result.isValid = false; result.validationMessage = message] *)
Definition invalidate (result : AzureAdTokenValidationResult)
    (message : option string) : AzureAdTokenValidationResult :=
  {| accessToken := accessToken result;
     decodedAccessToken := decodedAccessToken result;
     isValid := false;
     validationMessage := message |}.

(** The second argument of [verify], for a header whose [alg] is the
    string [declared]: the PEM wrapping of [x5c[0]] for the [RS] family,
    [x5c[0]] itself otherwise. *)
Definition secretOrPublicKey (declared : string)
    (publicKey : AzureAdKeyValue) : option string :=
  if Js.indexOf declared "RS" =? 0
  then Some ("-----BEGIN CERTIFICATE-----" +:+ Js.newline
             +:+ Js.template (head (x5c publicKey)) +:+ Js.newline
             +:+ "-----END CERTIFICATE-----")
  else head (x5c publicKey).

(** [if (!this.metadata) { await this.loadMetadata(); }] *)
Definition ensureMetadata : M unit :=
  let* this_ := get_this in
  match metadata this_ with
  | None => loadMetadata
  | Some _ => ret tt
  end.

(** [validate].  The [try] block yields [None] when [verify] returns; its
    [catch] block yields the result it returns, or rethrows.  The arguments
    of [verify] are evaluated inside the [try] block, and
    [header.alg.indexOf] on a header without [alg] throws there. *)
Definition validate (accessToken : string) : M AzureAdTokenValidationResult :=
  ensureMetadata ;;
  let result :=
    {| accessToken := accessToken; decodedAccessToken := None;
       isValid := true; validationMessage := None |} in
  match jwt_decode ext accessToken with
  | None =>
      ret (invalidate result (Some "The access token could not be decoded"))
  | Some decodedAccessToken =>
      let result :=
        {| accessToken := accessToken;
           decodedAccessToken :=
             Some {| header := header decodedAccessToken;
                     payload := payload decodedAccessToken;
                     signature := signature decodedAccessToken |};
           isValid := isValid result;
           validationMessage := validationMessage result |} in
      let* publicKey := getPublicKey decodedAccessToken in
      match publicKey with
      | None => ret (invalidate result (Some "Invalid key"))
      | Some publicKey =>
          let* this_ := get_this in
          let* returned :=
            try_catch
              (match alg (header decodedAccessToken) with
               | None =>
                   throw (TypeError
                            "Cannot read properties of undefined (reading 'indexOf')")
               | Some declared =>
                   verify accessToken
                     (secretOrPublicKey declared publicKey)
                     {| algorithms := [declared];
                        verify_audience := audience (options this_);
                        issuer := validIssuers (options this_) |} ;;
                   ret None
               end)
              (fun error =>
                 if instanceofJsonWebTokenError error
                 then ret (Some (invalidate result
                                   (Some (error_message error))))
                 else throw error) in
          match returned with
          | Some result => ret result
          | None =>
              let tokenValidationResult :=
                validateAdditionalClaims (payload decodedAccessToken)
                  (options this_) in
              if negb (sv_isValid tokenValidationResult)
              then ret (invalidate result
                          (sv_validationMessage tokenValidationResult))
              else ret result
          end
      end
  end.

End Pipeline.

(** The third argument of [verify] in [validate], as a function of the
    validator and the algorithm the token declares. *)
Definition verifyOptionsOf (this_ : AzureAdTokenValidator)
    (declared : string) : VerifyOptions :=
  {| algorithms := [declared];
     verify_audience := audience (options this_);
     issuer := validIssuers (options this_) |}.

(** A certificate value between the PEM certificate delimiters. *)
Definition pemCertificate (value : string) : string :=
  "-----BEGIN CERTIFICATE-----" +:+ Js.newline +:+ value +:+ Js.newline
  +:+ "-----END CERTIFICATE-----".

(** [getPublicKey] writes the cache only under a truthy [header.kid]: the
    empty string is never a key of the shared cache. *)
Definition cache_wf (c : gmap string AzureAdKeyValue) : Prop :=
  c !! EmptyString = None.

(** ** The fixtures of [tests/AzureAdTokenValidator.spec.ts]

    The mocked HTTP adapter answers [/metadata] and [/keys?appid=..]; tokens
    are named by strings and [decode] maps each name to the header and
    payload the test signs.  The verifier double accepts the shared secret
    and rejects the token whose audience differs, with the message the test
    expects. *)

Module Fixture.

Definition secret : string := "secret".
Definition metadataUri : string := "/metadata".
Definition keysUri : string := "/keys".
Definition fx_audience : string := "api://28748804-910c-52c8-a22b-54c8a6148f16".
Definition fx_tenantId : string := "75400737-17ad-5426-9e6b-df83ab52c0a1".
Definition fx_appid : string := "ce5da148-28fd-5850-84a6-592b046d3bf9".
Definition fx_kid : string := "e4a44080-63e2-5fc0-b84a-7e94b3952db7".

Definition baseValidatorOptions : AzureAdTokenValidationOptions :=
  {| tenantId := Some fx_tenantId; audience := Some fx_audience;
     metadataDocumentUri := Some metadataUri;
     allowedApplicationIds := None; roles := None;
     requiredScopes := None; validIssuers := None |}.

Definition scopedValidatorOptions : AzureAdTokenValidationOptions :=
  {| tenantId := Some fx_tenantId; audience := Some fx_audience;
     metadataDocumentUri := Some metadataUri;
     allowedApplicationIds := None; roles := None;
     requiredScopes := Some ["Api.Connect"]; validIssuers := None |}.

Definition fx_header : AzureAdTokenHeader :=
  {| alg := Some "HS256"; header_kid := Some fx_kid |}.

Definition validToken : AzureAdToken :=
  {| header := fx_header;
     payload := {| appid := Some fx_appid; azp := None; scp := None;
                   tid := Some fx_tenantId |};
     signature := "sig-valid" |}.

Definition emptyScopeToken : AzureAdToken :=
  {| header := fx_header;
     payload := {| appid := Some fx_appid; azp := None;
                   scp := Some EmptyString; tid := Some fx_tenantId |};
     signature := "sig-scope" |}.

(** A payload of another tenant, carrying no scope claim. *)
Definition foreignTenantPayload : AzureAdTokenPayload :=
  {| appid := Some fx_appid; azp := None; scp := None;
     tid := Some "00000000-0000-0000-0000-000000000000" |}.

Definition fx_key : AzureAdKeyValue :=
  {| kid := fx_kid; use := "sig"; x5t := fx_kid; x5c := [secret] |}.

Definition fx_decode (token : string) : option AzureAdToken :=
  if String.eqb token "valid.jwt" then Some validToken
  else if String.eqb token "emptyscope.jwt" then Some emptyScopeToken
  else if String.eqb token "wrongaudience.jwt" then Some emptyScopeToken
  else None.

Definition fx_verify (_ : list Event) (token : string)
    (key : option string) (opts : VerifyOptions) : option Thrown :=
  if negb (Js.strict_eq key (Some secret))
  then Some (JsonWebTokenError "invalid signature")
  else if String.eqb token "wrongaudience.jwt"
  then Some (JsonWebTokenError
               ("jwt audience invalid. expected: "
                +:+ Js.template (verify_audience opts)))
  else None.

Definition fx_http_metadata (_ : list Event) (uri : option string)
  : Completion AzureAdOpenIdConnectMetadataDocument :=
  if Js.strict_eq uri (Some metadataUri)
  then Return {| jwks_uri := keysUri |}
  else Throw (AxiosError "Request failed with status code 404"
                (Some {| data := EmptyString; status := 404 |}) None).

Definition fx_http_keys (_ : list Event) (url : string)
  : Completion AzureAdOpenIdConnectMetadataKeysDocument :=
  if String.eqb url (keysUri +:+ "?appid=" +:+ fx_appid)
  then Return {| keys := [fx_key] |}
  else Throw (AxiosError "Request failed with status code 404"
                (Some {| data := EmptyString; status := 404 |}) None).

(** A stand-in for [JSON.stringify] that tells the answers of the fixtures
    apart; the theorems keep [JSON_stringify] abstract. *)
Definition fx_stringify (r : HttpInfo) : string :=
  if status r =? 404 then "{status:404}" else "{}".

Definition ext : Externals :=
  {| http_metadata := fx_http_metadata; http_keys := fx_http_keys;
     jwt_decode := fx_decode; jwt_verify := fx_verify;
     JSON_stringify := fx_stringify |}.

(** A process that has just constructed a validator: nothing cached, nothing
    fetched. *)
Definition fresh (opts : AzureAdTokenValidationOptions) : State :=
  {| this := {| options := opts; metadata := None |};
     cache := ∅; trace := [] |}.

(** A validator whose discovery document is already loaded. *)
Definition loaded (opts : AzureAdTokenValidationOptions) : State :=
  {| this := {| options := opts;
                metadata := Some {| jwks_uri := keysUri |} |};
     cache := ∅; trace := [] |}.

(** Configurations with a required option left out. *)
Definition noUriOptions : AzureAdTokenValidationOptions :=
  {| tenantId := Some fx_tenantId; audience := Some fx_audience;
     metadataDocumentUri := None;
     allowedApplicationIds := None; roles := None;
     requiredScopes := None; validIssuers := None |}.

Definition noTenantOptions : AzureAdTokenValidationOptions :=
  {| tenantId := None; audience := Some fx_audience;
     metadataDocumentUri := Some metadataUri;
     allowedApplicationIds := None; roles := None;
     requiredScopes := None; validIssuers := None |}.

(** A key endpoint that publishes three keys at once. *)
Definition siblingKey (name : string) : AzureAdKeyValue :=
  {| kid := name; use := "sig"; x5t := name; x5c := ["cert-" +:+ name] |}.

Definition keySetOfThree : list AzureAdKeyValue :=
  [siblingKey "k1"; siblingKey "k2"; siblingKey "k3"].

Definition tokenSignedBy (name : string) : AzureAdToken :=
  {| header := {| alg := Some "RS256"; header_kid := Some name |};
     payload := payload validToken;
     signature := "sig-" +:+ name |}.

Definition ext3 : Externals :=
  {| http_metadata := fx_http_metadata;
     http_keys := fun _ _ => Return {| keys := keySetOfThree |};
     jwt_decode := fun token =>
       if String.eqb token "k1.jwt" then Some (tokenSignedBy "k1")
       else if String.eqb token "k2.jwt" then Some (tokenSignedBy "k2")
       else None;
     jwt_verify := fun _ _ _ _ => None;
     JSON_stringify := fx_stringify |}.

(** An endpoint that cannot be reached, and a verifier that fails in a way
    that is not a [JsonWebTokenError]. *)
Definition extDown : Externals :=
  {| http_metadata := fun _ _ => Throw (AxiosError "Network Error" None None);
     http_keys := fx_http_keys; jwt_decode := fx_decode;
     jwt_verify := fx_verify; JSON_stringify := fx_stringify |}.

End Fixture.

(** ** Processes

    The states a process can be in: it starts with an empty shared cache and
    no external call made, constructs validators (the instance under
    consideration changes, the cache stays), and calls [validate] on them. *)

Inductive reachable (ext : Externals) : State -> Prop :=
| reachable_start (this_ : AzureAdTokenValidator) :
    reachable ext {| this := this_; cache := ∅; trace := [] |}
| reachable_construct (s s' : State) (opts : AzureAdTokenValidationOptions) :
    reachable ext s -> constructor opts s = (Return tt, s') ->
    reachable ext s'
| reachable_validate (s s' : State) (token : string)
    (r : Completion AzureAdTokenValidationResult) :
    reachable ext s -> validate ext token s = (r, s') -> reachable ext s'.

(** The application identifier a payload is judged by and fetched with:
    [azp || appid]. *)
Definition applicationIdOf (tokenPayload : AzureAdTokenPayload)
  : option string :=
  Js.or (azp tokenPayload) (appid tokenPayload).

(** ** More fixtures: the rules of [tests/SimpleValidator.spec.ts], a token
    without key identifier, a key endpoint that is down *)

Module MoreFixtures.

(** [value.length > 3]; the values of the fixtures are ASCII, for which
    the length in characters is the length in UTF-16 units. *)
Definition tooShort : SimpleValidationRule string :=
  {| rule_validate := fun value => (3 <? Z.of_nat (String.length value));
     invalidMessage := "too short" |}.

Definition startsWithHash : SimpleValidationRule string :=
  {| rule_validate := fun value => String.prefix "#" value;
     invalidMessage := "does not start with #" |}.

Definition validationRules : list (SimpleValidationRule string) :=
  [tooShort; startsWithHash].

Definition noKidToken : AzureAdToken :=
  {| header := {| alg := Some "HS256"; header_kid := None |};
     payload := payload Fixture.validToken;
     signature := "sig-nokid" |}.

Definition azpToken : AzureAdToken :=
  {| header := Fixture.fx_header;
     payload := {| appid := Some Fixture.fx_appid;
                   azp := Some "11111111-2222-3333-4444-555555555555";
                   scp := Some "Api.Connect Api.Read";
                   tid := Some Fixture.fx_tenantId |};
     signature := "sig-azp" |}.

Definition allowListOptions : AzureAdTokenValidationOptions :=
  {| tenantId := Some Fixture.fx_tenantId;
     audience := Some Fixture.fx_audience;
     metadataDocumentUri := Some Fixture.metadataUri;
     allowedApplicationIds := Some [Fixture.fx_appid];
     roles := None;
     requiredScopes := Some ["Api.Connect"]; validIssuers := None |}.

(** A token whose header declares no algorithm, and tokens whose key
    identifier is the name of a member of [Object.prototype]. *)
Definition noAlgToken : AzureAdToken :=
  {| header := {| alg := None; header_kid := Some Fixture.fx_kid |};
     payload := payload Fixture.validToken;
     signature := "sig-noalg" |}.

Definition shadowToken : AzureAdToken :=
  {| header := {| alg := Some "HS256";
                  header_kid := Some "hasOwnProperty" |};
     payload := payload Fixture.validToken;
     signature := "sig-shadow" |}.

Definition protoToken : AzureAdToken :=
  {| header := {| alg := Some "HS256"; header_kid := Some "__proto__" |};
     payload := payload Fixture.validToken;
     signature := "sig-proto" |}.

Definition decodeMore (token : string) : option AzureAdToken :=
  if String.eqb token "nokid.jwt" then Some noKidToken
  else if String.eqb token "azp.jwt" then Some azpToken
  else if String.eqb token "noalg.jwt" then Some noAlgToken
  else if String.eqb token "shadow.jwt" then Some shadowToken
  else if String.eqb token "proto.jwt" then Some protoToken
  else Fixture.fx_decode token.

Definition ext : Externals :=
  {| http_metadata := Fixture.fx_http_metadata;
     http_keys := Fixture.fx_http_keys;
     jwt_decode := decodeMore;
     jwt_verify := Fixture.fx_verify;
     JSON_stringify := Fixture.fx_stringify |}.

(** The key endpoint answers 503 to everything. *)
Definition extKeysDown : Externals :=
  {| http_metadata := Fixture.fx_http_metadata;
     http_keys := fun _ _ =>
       Throw (AxiosError "Request failed with status code 503"
                (Some {| data := "unavailable"; status := 503 |}) None);
     jwt_decode := decodeMore;
     jwt_verify := Fixture.fx_verify;
     JSON_stringify := Fixture.fx_stringify |}.

(** The key endpoint publishes an empty key set. *)
Definition extNoKeys : Externals :=
  {| http_metadata := Fixture.fx_http_metadata;
     http_keys := fun _ _ => Return {| keys := [] |};
     jwt_decode := decodeMore;
     jwt_verify := Fixture.fx_verify;
     JSON_stringify := Fixture.fx_stringify |}.

(** A process that has validated the test's valid token once. *)
Definition warm : State :=
  snd (validate Fixture.ext "valid.jwt"
         (Fixture.fresh Fixture.baseValidatorOptions)).

End MoreFixtures.

(** ** The required-scopes rule as the specification words it

    The scope claim is split on spaces into a set; an empty or absent scope
    claim carries no scopes; an empty or absent required list always
    passes. *)



(** * Properties *)

(** ** JavaScript helpers *)

Example split_empty : Js.split Js.space EmptyString = [EmptyString].
Proof. reflexivity. Qed.

Example split_two : Js.split Js.space "Api.Connect Api.Read" = ["Api.Connect"; "Api.Read"].
Proof. reflexivity. Qed.

Example split_double_space : Js.split Js.space "a  b" = ["a"; EmptyString; "b"].
Proof. reflexivity. Qed.

Example indexOf_RS256 : Js.indexOf "RS256" "RS" = 0.
Proof. reflexivity. Qed.

Example indexOf_HS256 : Js.indexOf "HS256" "RS" = -1.
Proof. reflexivity. Qed.

Lemma truthy_Some (v : option string) :
  Js.truthy v = true ↔ ∃ s, v = Some s ∧ s ≠ EmptyString.
Proof.
  destruct v as [s|]; simpl.
  - rewrite negb_true_iff. split.
    + intros H. exists s. split; [done|]. intros ->. discriminate.
    + intros (s' & [= <-] & Hne). by apply String.eqb_neq.
  - split; [done|]. by intros (? & ? & ?).
Qed.

Lemma strict_eq_true (a b : option string) :
  Js.strict_eq a b = true ↔ a = b.
Proof.
  destruct a as [x|], b as [y|]; simpl; try (split; congruence).
  rewrite String.eqb_eq. split; congruence.
Qed.



(** [s.indexOf(pat) === 0] says that [s] begins with [pat]. *)
Lemma indexOf_zero_prefix (s pat : string) :
  Js.indexOf s pat = 0 ↔ String.prefix pat s = true.
Proof.
  unfold Js.indexOf. destruct s as [|b s'].
  - destruct pat; simpl; split; (done || lia).
  - cbn [String.index].
    destruct (String.prefix pat (String b s')) eqn:Hp.
    + split; [done|reflexivity].
    + destruct (String.index 0 pat s'); split; (discriminate || lia).
Qed.

(** The pieces of [split], joined again with the separator, give back the
    string, and no piece contains the separator. *)
Lemma join_cons_cons (sep : ascii) (x y : string) (rest : list string) :
  Js.join sep (x :: y :: rest) = x +:+ String sep (Js.join sep (y :: rest)).
Proof. reflexivity. Qed.




Lemma split_absent (sep : ascii) (s : string) :
  Js.contains sep s = false → Js.split sep s = [s].
Proof.
  induction s as [|c s' IH]; [done|]. simpl.
  intros [Hc Hs]%orb_false_iff. rewrite Hc. by rewrite IH.
Qed.

Lemma split_app_sep (sep : ascii) (p rest : string) :
  Js.contains sep p = false →
  Js.split sep (p +:+ String sep rest) = p :: Js.split sep rest.
Proof.
  induction p as [|c p' IH]; simpl.
  - intros _. by rewrite Ascii.eqb_refl.
  - intros [Hc Hp]%orb_false_iff. rewrite Hc. by rewrite IH.
Qed.

(** [split] is the only such decomposition. *)
Lemma split_unique (sep : ascii) (xs : list string) :
  xs ≠ [] → (∀ p, p ∈ xs → Js.contains sep p = false) →
  Js.split sep (Js.join sep xs) = xs.
Proof.
  induction xs as [|x rest IH]; [done|]. intros _ Hfree.
  destruct rest as [|y rest'].
  - simpl. apply split_absent, Hfree. by left.
  - rewrite join_cons_cons.
    rewrite split_app_sep by (apply Hfree; by left).
    f_equal. apply IH; [done|]. intros p Hp. apply Hfree. by right.
Qed.

(** ** [validateRules] *)

Lemma validateRules_all_pass {T} (value : T) (rules : list (SimpleValidationRule T)) :
  (∀ r, r ∈ rules → rule_validate r value = true) →
  validateRules value rules
  = {| sv_isValid := true; sv_validationMessage := None |}.
Proof.
  induction rules as [|r rest IH]; intros Hall; [done|]. simpl.
  rewrite (Hall r) by (by left). simpl. apply IH.
  intros r' Hr'. apply Hall. by right.
Qed.

Lemma validateRules_first_failure {T} (value : T)
    (passed : list (SimpleValidationRule T)) (failing : SimpleValidationRule T)
    (later : list (SimpleValidationRule T)) :
  (∀ r, r ∈ passed → rule_validate r value = true) →
  rule_validate failing value = false →
  validateRules value (passed ++ failing :: later)
  = {| sv_isValid := false;
       sv_validationMessage := Some (invalidMessage failing) |}.
Proof.
  induction passed as [|r rest IH]; intros Hall Hfail; simpl.
  - by rewrite Hfail.
  - rewrite (Hall r) by (by left). simpl. apply IH; [|done].
    intros r' Hr'. apply Hall. by right.
Qed.


Lemma validateRules_message_iff {T} (value : T) (rules : list (SimpleValidationRule T)) :
  is_Some (sv_validationMessage (validateRules value rules))
  ↔ sv_isValid (validateRules value rules) = false.
Proof.
  induction rules as [|r rest IH]; simpl.
  - split; [by intros [? ?]|done].
  - destruct (rule_validate r value); simpl; [apply IH|]. split; eauto.
Qed.

(** ** The claims-policy engine *)

(** C5. The claims-policy engine runs exactly the three rules tenant-match,
    application-allow-list, required-scopes, in that order; the first rule
    that fails decides the verdict and its message, whatever the rules after
    it are; a payload failing both the tenant-match and the required-scopes
    rule is reported with "tenantId does not match" only. *)
Theorem claims_policy_fixed_order
    (tokenPayload : AzureAdTokenPayload) (opts : AzureAdTokenValidationOptions) :
  let tenant := tenantRule (tenantId opts) in
  let application := applicationRule (allowedApplicationIds opts) in
  let scopes := scopesRule (requiredScopes opts) in
  let verdict := validateAdditionalClaims tokenPayload opts in
  verdict = validateRules tokenPayload [tenant; application; scopes]
  ∧ (∀ passed failing later later',
        (∀ r, r ∈ passed → rule_validate r tokenPayload = true) →
        rule_validate failing tokenPayload = false →
        validateRules tokenPayload (passed ++ failing :: later)
        = validateRules tokenPayload (passed ++ failing :: later')
        ∧ validateRules tokenPayload (passed ++ failing :: later)
          = {| sv_isValid := false;
               sv_validationMessage := Some (invalidMessage failing) |})
  ∧ (rule_validate tenant tokenPayload = false →
     verdict = {| sv_isValid := false;
                  sv_validationMessage := Some "tenantId does not match" |})
  ∧ (rule_validate tenant tokenPayload = true →
     rule_validate application tokenPayload = false →
     verdict = {| sv_isValid := false;
                  sv_validationMessage :=
                    Some "authenticated applicationId not in allowed list" |})
  ∧ (rule_validate tenant tokenPayload = true →
     rule_validate application tokenPayload = true →
     rule_validate scopes tokenPayload = false →
     verdict = {| sv_isValid := false;
                  sv_validationMessage := Some "required scopes missing" |})
  ∧ (rule_validate tenant tokenPayload = true →
     rule_validate application tokenPayload = true →
     rule_validate scopes tokenPayload = true →
     verdict = {| sv_isValid := true; sv_validationMessage := None |})
  ∧ (rule_validate tenant tokenPayload = false →
     rule_validate scopes tokenPayload = false →
     sv_validationMessage verdict = Some "tenantId does not match").
Proof.
  intros tenant application scopes verdict.
  assert (Hdef : verdict
                 = validateRules tokenPayload [tenant; application; scopes])
    by reflexivity.
  split; [exact Hdef|]. split.
  { intros passed failing later later' Hpassed Hfailing.
    by rewrite !(validateRules_first_failure _ passed failing). }
  rewrite Hdef. cbn [validateRules].
  destruct (rule_validate tenant tokenPayload),
    (rule_validate application tokenPayload),
    (rule_validate scopes tokenPayload); simpl; repeat split; congruence.
Qed.

Lemma claims_policy_fixed_order_witness :
  sv_validationMessage
    (validateAdditionalClaims Fixture.foreignTenantPayload
       Fixture.scopedValidatorOptions)
  = Some "tenantId does not match".
Proof.
  destruct (claims_policy_fixed_order Fixture.foreignTenantPayload
              Fixture.scopedValidatorOptions)
    as (_ & _ & _ & _ & _ & _ & Hboth).
  apply Hboth; reflexivity.
Defined.

(** ** The required-scopes rule *)





(** ** Running the pipeline *)

Ltac run :=
  unfold bind, ret, throw, try_catch, get_this, set_this, set_metadata,
    cache_getItem, cache_setItem, log, get_trace; simpl.

Lemma State_eta (s : State) :
  {| this := this s; cache := cache s; trace := trace s |} = s.
Proof. by destruct s. Qed.

Lemma AzureAdToken_eta (jwt : AzureAdToken) :
  {| header := header jwt; payload := payload jwt;
     signature := signature jwt |} = jwt.
Proof. by destruct jwt. Qed.

Lemma last_cons_cons {A} (x y : A) (l : list A) :
  last (x :: y :: l) = last (y :: l).
Proof. reflexivity. Qed.

(** *** The cache object *)

Lemma shadowed_false {T} (c : gmap string T) :
  SimpleCache.shadowed c = false ↔ c !! "hasOwnProperty" = None.
Proof.
  unfold SimpleCache.shadowed. rewrite bool_decide_eq_false.
  by rewrite eq_None_not_Some.
Qed.

Lemma shadowed_true {T} (c : gmap string T) :
  SimpleCache.shadowed c = true ↔ is_Some (c !! "hasOwnProperty").
Proof. unfold SimpleCache.shadowed. by rewrite bool_decide_eq_true. Qed.

(** [getItem] returns exactly when the method is not shadowed, and then it
    returns the own property. *)
Lemma getItem_Return {T} (c : gmap string T) (k : string) (o : option T) :
  SimpleCache.getItem c k = Return o
  ↔ c !! "hasOwnProperty" = None ∧ c !! k = o.
Proof.
  unfold SimpleCache.getItem. rewrite <- shadowed_false.
  destruct (SimpleCache.shadowed c); split;
    [done | by intros [? _] | by intros [= <-] | by intros [_ <-]].
Qed.

Lemma getItem_Throw {T} (c : gmap string T) (k : string) (e : Thrown) :
  SimpleCache.getItem c k = Throw e
  ↔ is_Some (c !! "hasOwnProperty")
    ∧ e = TypeError "this.memoryCache.hasOwnProperty is not a function".
Proof.
  unfold SimpleCache.getItem. rewrite <- shadowed_true.
  destruct (SimpleCache.shadowed c); split;
    [by intros [= <-] | by intros [_ ->] | done | by intros [? _]].
Qed.

Lemma setItem_ordinary {T} (c : gmap string T) (k : string) (v : T) :
  k ≠ "__proto__" → SimpleCache.setItem c k v = <[k := v]> c.
Proof.
  intros Hk. unfold SimpleCache.setItem.
  by apply String.eqb_neq in Hk as ->.
Qed.

Lemma setItem_proto {T} (c : gmap string T) (v : T) :
  c !! "__proto__" = None → SimpleCache.setItem c "__proto__" v = c.
Proof. intros Hc. unfold SimpleCache.setItem. simpl. by rewrite Hc. Qed.

(** Writing a batch of keys under one identifier that has no entry leaves
    the last of them, or nothing when the identifier is [__proto__]. *)
Lemma foldl_setItem_miss (k : string) (ks : list AzureAdKeyValue)
    (c : gmap string AzureAdKeyValue) :
  c !! k = None →
  foldl (λ c pk, SimpleCache.setItem c k pk) c ks
  = if String.eqb k "__proto__" then c
    else match last ks with
         | Some pk => <[k := pk]> c
         | None => c
         end.
Proof.
  intros Hc. destruct (String.eqb_spec k "__proto__") as [->|Hk].
  - induction ks as [|a ks IH]; [done|]. cbn [foldl].
    by rewrite setItem_proto.
  - clear Hc. revert c. induction ks as [|a ks IH]; intros c; [done|].
    cbn [foldl]. rewrite IH, setItem_ordinary by done.
    destruct ks as [|b ks']; [done|]. rewrite last_cons_cons.
    destruct (last (b :: ks')) as [pk|] eqn:Hlast.
    + apply insert_insert_eq.
    + by apply last_None in Hlast.
Qed.

Lemma for_of_setItem (k : string) (ks : list AzureAdKeyValue) (s : State) :
  for_of ks (λ publicKey, cache_setItem k publicKey) s
  = (Return tt,
     {| this := this s;
        cache := foldl (λ c pk, SimpleCache.setItem c k pk) (cache s) ks;
        trace := trace s |}).
Proof.
  revert s. induction ks as [|a ks IH]; intros s.
  - simpl. unfold ret. by rewrite State_eta.
  - cbn [for_of]. unfold bind at 1. unfold cache_setItem at 1.
    by rewrite IH.
Qed.

Section PipelineFacts.
Variable ext : Externals.

Lemma ensureMetadata_loaded (s : State) :
  is_Some (metadata (this s)) → ensureMetadata ext s = (Return tt, s).
Proof.
  intros [d Hd]. unfold ensureMetadata. run. by rewrite Hd.
Qed.

Lemma ensureMetadata_unfold (s : State) :
  ensureMetadata ext s
  = match metadata (this s) with
    | Some _ => (Return tt, s)
    | None =>
        let uri := metadataDocumentUri (options (this s)) in
        let t := (trace s ++ [EvGet uri])%list in
        match http_metadata ext (trace s) uri with
        | Return d =>
            (Return tt,
             {| this := {| options := options (this s);
                           metadata := Some d |};
                cache := cache s; trace := t |})
        | Throw e =>
            (Throw (formattedError ext e None),
             {| this := this s; cache := cache s; trace := t |})
        end
    end.
Proof.
  unfold ensureMetadata, loadMetadata, axios_get_metadata,
    throwFormattedError. run.
  destruct (metadata (this s)); [done|].
  by destruct (http_metadata ext (trace s) _).
Qed.

Lemma getPublicKey_no_kid (jwt : AzureAdToken) (s : State) :
  Js.truthy (header_kid (header jwt)) = false →
  getPublicKey ext jwt s = (Return None, s).
Proof.
  unfold getPublicKey. destruct (header_kid (header jwt)) as [k|]; [|done].
  by intros ->.
Qed.

(** The first lookup decides: a thrown lookup is thrown on, a found key is
    returned, and only a lookup that returns [undefined] goes on to fetch. *)
Lemma getPublicKey_lookup (jwt : AzureAdToken) (k : string) (s : State) :
  header_kid (header jwt) = Some k → k ≠ EmptyString →
  getPublicKey ext jwt s
  = match SimpleCache.getItem (cache s) k with
    | Throw e => (Throw e, s)
    | Return (Some key) => (Return (Some key), s)
    | Return None =>
        let url := keysUrl (this s)
                     (Js.or (azp (payload jwt)) (appid (payload jwt))) in
        let t := (trace s ++ [EvGet (Some url)])%list in
        match http_keys ext (trace s) url with
        | Return d =>
            let written :=
              foldl (λ c pk, SimpleCache.setItem c k pk) (cache s) (keys d) in
            (SimpleCache.getItem written k,
             {| this := this s; cache := written; trace := t |})
        | Throw e =>
            (Throw (formattedError ext e
                      (Some "Error connecting to discovery keys endpoint")),
             {| this := this s; cache := cache s; trace := t |})
        end
    end.
Proof.
  intros Hk Hne. unfold getPublicKey. rewrite Hk.
  assert (Js.truthy (Some k) = true) as -> by (apply truthy_Some; eauto).
  cbn [negb]. unfold bind at 1. unfold cache_getItem at 1.
  destruct (SimpleCache.getItem (cache s) k) as [[key|]|e]; [done| |done].
  unfold bind at 1, try_catch, axios_get_keys, throwFormattedError.
  unfold bind at 1, get_this. unfold bind at 1. unfold bind at 1.
  unfold get_trace. unfold bind at 1, log. cbn [trace this cache].
  destruct (http_keys ext (trace s) _) as [d|e]; [|done].
  unfold ret at 1. rewrite for_of_setItem. cbn [trace this cache].
  reflexivity.
Qed.

Lemma getPublicKey_hit (jwt : AzureAdToken) (k : string)
    (key : AzureAdKeyValue) (s : State) :
  header_kid (header jwt) = Some k → k ≠ EmptyString →
  SimpleCache.getItem (cache s) k = Return (Some key) →
  getPublicKey ext jwt s = (Return (Some key), s).
Proof.
  intros Hk Hne Hc. by rewrite (getPublicKey_lookup jwt k s Hk Hne), Hc.
Qed.

Lemma getPublicKey_shadowed (jwt : AzureAdToken) (k : string) (e : Thrown)
    (s : State) :
  header_kid (header jwt) = Some k → k ≠ EmptyString →
  SimpleCache.getItem (cache s) k = Throw e →
  getPublicKey ext jwt s = (Throw e, s).
Proof.
  intros Hk Hne Hc. by rewrite (getPublicKey_lookup jwt k s Hk Hne), Hc.
Qed.

(** After a lookup that returned [undefined]: one fetch; the keys of the
    answer are written under [k] (not at all for [__proto__]); the second
    lookup is the result. *)
Lemma getPublicKey_miss (jwt : AzureAdToken) (k : string) (s : State) :
  header_kid (header jwt) = Some k → k ≠ EmptyString →
  SimpleCache.getItem (cache s) k = Return None →
  getPublicKey ext jwt s
  = let url := keysUrl (this s)
                 (Js.or (azp (payload jwt)) (appid (payload jwt))) in
    let t := (trace s ++ [EvGet (Some url)])%list in
    match http_keys ext (trace s) url with
    | Return d =>
        let written :=
          if String.eqb k "__proto__" then cache s
          else match last (keys d) with
               | Some pk => <[k := pk]> (cache s)
               | None => cache s
               end in
        (SimpleCache.getItem written k,
         {| this := this s; cache := written; trace := t |})
    | Throw e =>
        (Throw (formattedError ext e
                  (Some "Error connecting to discovery keys endpoint")),
         {| this := this s; cache := cache s; trace := t |})
    end.
Proof.
  intros Hk Hne Hc. rewrite (getPublicKey_lookup jwt k s Hk Hne), Hc.
  apply getItem_Return in Hc as [_ Hc]. cbv zeta.
  destruct (http_keys ext (trace s) _) as [d|e]; [|done].
  by rewrite (foldl_setItem_miss k (keys d) (cache s) Hc).
Qed.

(** [validate], stage by stage. *)
Lemma validate_unfold (token : string) (s : State) :
  validate ext token s
  = match ensureMetadata ext s with
    | (Throw e, s0) => (Throw e, s0)
    | (Return _, s0) =>
        match jwt_decode ext token with
        | None =>
            (Return {| accessToken := token; decodedAccessToken := None;
                       isValid := false;
                       validationMessage :=
                         Some "The access token could not be decoded" |},
             s0)
        | Some jwt =>
            match getPublicKey ext jwt s0 with
            | (Throw e, s1) => (Throw e, s1)
            | (Return None, s1) =>
                (Return {| accessToken := token;
                           decodedAccessToken := Some jwt;
                           isValid := false;
                           validationMessage := Some "Invalid key" |},
                 s1)
            | (Return (Some publicKey), s1) =>
                match alg (header jwt) with
                | None =>
                    (Throw (TypeError
                              "Cannot read properties of undefined (reading 'indexOf')"),
                     s1)
                | Some declared =>
                let key := secretOrPublicKey declared publicKey in
                let vopts := verifyOptionsOf (this s1) declared in
                let s2 :=
                  {| this := this s1; cache := cache s1;
                     trace :=
                       (trace s1 ++ [EvVerify token key vopts])%list |} in
                match jwt_verify ext (trace s1) token key vopts with
                | Some error =>
                    if instanceofJsonWebTokenError error
                    then (Return {| accessToken := token;
                                    decodedAccessToken := Some jwt;
                                    isValid := false;
                                    validationMessage :=
                                      Some (error_message error) |},
                          s2)
                    else (Throw error, s2)
                | None =>
                    let verdict :=
                      validateAdditionalClaims (payload jwt)
                        (options (this s1)) in
                    if sv_isValid verdict
                    then (Return {| accessToken := token;
                                    decodedAccessToken := Some jwt;
                                    isValid := true;
                                    validationMessage := None |},
                          s2)
                    else (Return {| accessToken := token;
                                    decodedAccessToken := Some jwt;
                                    isValid := false;
                                    validationMessage :=
                                      sv_validationMessage verdict |},
                          s2)
                end
                end
            end
        end
    end.
Proof.
  unfold validate. unfold bind at 1.
  destruct (ensureMetadata ext s) as [[[]|e] s0]; [|done].
  destruct (jwt_decode ext token) as [jwt|]; [|done].
  unfold bind at 1. rewrite AzureAdToken_eta.
  destruct (getPublicKey ext jwt s0) as [[[publicKey|]|e] s1]; [|done..].
  destruct (alg (header jwt)) as [declared|]; [|by run].
  unfold verify, verifyOptionsOf. run.
  destruct (jwt_verify ext (trace s1) token _ _) as [error|]; simpl.
  - by destruct (instanceofJsonWebTokenError error).
  - by destruct (sv_isValid _).
Qed.

End PipelineFacts.

(** The three cases of [tests/AzureAdTokenValidator.spec.ts], and a
    discovery endpoint that is down. *)

Example test_token_is_valid :
  let result := fst (validate Fixture.ext "valid.jwt"
                       (Fixture.fresh Fixture.baseValidatorOptions)) in
  (validationMessage <$> completion_value result) = Some None
  ∧ (isValid <$> completion_value result) = Some true.
Proof. split; reflexivity. Qed.

Example test_required_scope_missing :
  let result := fst (validate Fixture.ext "emptyscope.jwt"
                       (Fixture.fresh Fixture.scopedValidatorOptions)) in
  (validationMessage <$> completion_value result)
  = Some (Some "required scopes missing")
  ∧ (isValid <$> completion_value result) = Some false.
Proof. split; reflexivity. Qed.

Example test_audience_does_not_match :
  let result := fst (validate Fixture.ext "wrongaudience.jwt"
                       (Fixture.fresh Fixture.scopedValidatorOptions)) in
  (validationMessage <$> completion_value result)
  = Some (Some ("jwt audience invalid. expected: " +:+ Fixture.fx_audience))
  ∧ (isValid <$> completion_value result) = Some false.
Proof. split; reflexivity. Qed.

Example discovery_endpoint_down :
  fst (validate Fixture.extDown "valid.jwt"
         (Fixture.fresh Fixture.baseValidatorOptions))
  = Throw (Error "Network Error").
Proof. reflexivity. Qed.

(** ** Frames: what the stages leave alone *)

Section Frames.
Variable ext : Externals.

Lemma ensureMetadata_frame (s s0 : State) (r : Completion unit) :
  ensureMetadata ext s = (r, s0) →
  options (this s0) = options (this s) ∧ cache s0 = cache s
  ∧ ∃ evs, trace s0 = (trace s ++ evs)%list ∧ forallb is_fetch evs = true.
Proof.
  rewrite ensureMetadata_unfold.
  destruct (metadata (this s)).
  - intros [= <- <-]. repeat split; [done..|]. exists [].
    by rewrite app_nil_r.
  - simpl. destruct (http_metadata ext (trace s) _);
      intros [= <- <-]; simpl; repeat split; eauto.
Qed.

Lemma getPublicKey_cases (jwt : AzureAdToken) (s : State) :
  getPublicKey ext jwt s = (Return None, s)
  ∨ (∃ k e, header_kid (header jwt) = Some k ∧ k ≠ EmptyString
            ∧ SimpleCache.getItem (cache s) k = Throw e
            ∧ getPublicKey ext jwt s = (Throw e, s))
  ∨ (∃ k key, header_kid (header jwt) = Some k ∧ k ≠ EmptyString
              ∧ SimpleCache.getItem (cache s) k = Return (Some key)
              ∧ getPublicKey ext jwt s = (Return (Some key), s))
  ∨ (∃ k, header_kid (header jwt) = Some k ∧ k ≠ EmptyString
          ∧ SimpleCache.getItem (cache s) k = Return None).
Proof.
  destruct (Js.truthy (header_kid (header jwt))) eqn:Hkid.
  - apply truthy_Some in Hkid as (k & Hk & Hne). right.
    destruct (SimpleCache.getItem (cache s) k) as [[key|]|e] eqn:Hc.
    + right. left. exists k, key. repeat split; [done..|].
      by apply getPublicKey_hit with k.
    + right. right. by exists k.
    + left. exists k, e. repeat split; [done..|].
      by apply getPublicKey_shadowed with k.
  - left. by apply getPublicKey_no_kid.
Qed.

Lemma getPublicKey_frame (jwt : AzureAdToken) (s s1 : State)
    (r : Completion (option AzureAdKeyValue)) :
  getPublicKey ext jwt s = (r, s1) →
  this s1 = this s
  ∧ ∃ evs, trace s1 = (trace s ++ evs)%list ∧ forallb is_fetch evs = true.
Proof.
  destruct (getPublicKey_cases jwt s)
    as [H | [(k & e & _ & _ & _ & H) | [(k & key & _ & _ & _ & H)
                                       | (k & Hk & Hne & Hc)]]].
  - rewrite H. intros [= <- <-]. split; [done|]. exists [].
    by rewrite app_nil_r.
  - rewrite H. intros [= <- <-]. split; [done|]. exists [].
    by rewrite app_nil_r.
  - rewrite H. intros [= <- <-]. split; [done|]. exists [].
    by rewrite app_nil_r.
  - rewrite (getPublicKey_miss ext jwt k s Hk Hne Hc). simpl.
    destruct (http_keys ext (trace s) _);
      intros [= <- <-]; simpl; split; eauto.
Qed.


Lemma getPublicKey_preserves_wf (jwt : AzureAdToken) (s s1 : State)
    (r : Completion (option AzureAdKeyValue)) :
  cache_wf (cache s) → getPublicKey ext jwt s = (r, s1) →
  cache_wf (cache s1).
Proof.
  intros Hwf.
  destruct (getPublicKey_cases jwt s)
    as [H | [(k & e & _ & _ & _ & H) | [(k & key & _ & _ & _ & H)
                                       | (k & Hk & Hne & Hc)]]].
  - rewrite H. by intros [= <- <-].
  - rewrite H. by intros [= <- <-].
  - rewrite H. by intros [= <- <-].
  - rewrite (getPublicKey_miss ext jwt k s Hk Hne Hc). simpl.
    destruct (http_keys ext (trace s) _) as [d|e0];
      intros [= <- <-]; [|done]. simpl.
    destruct (String.eqb k "__proto__"); [done|].
    destruct (last (keys d)); [|done].
    unfold cache_wf. by rewrite lookup_insert_ne.
Qed.

Lemma validate_preserves_wf (token : string) (s s' : State)
    (r : Completion AzureAdTokenValidationResult) :
  cache_wf (cache s) → validate ext token s = (r, s') →
  cache_wf (cache s').
Proof.
  intros Hwf. rewrite validate_unfold.
  destruct (ensureMetadata ext s) as [[[]|e] s0] eqn:Hmeta;
    apply ensureMetadata_frame in Hmeta as (_ & Hc0 & _);
    rewrite <- Hc0 in Hwf; [|by intros [= <- <-]].
  destruct (jwt_decode ext token) as [jwt|]; [|by intros [= <- <-]].
  destruct (getPublicKey ext jwt s0) as [[[publicKey|]|e] s1] eqn:Hkey;
    apply (getPublicKey_preserves_wf _ _ _ _ Hwf) in Hkey;
    [|by intros [= <- <-]..].
  destruct (alg (header jwt)) as [declared|]; [|by intros [= <- <-]].
  simpl. destruct (jwt_verify ext _ _ _ _) as [error|].
  - by destruct (instanceofJsonWebTokenError error); intros [= <- <-].
  - by destruct (sv_isValid _); intros [= <- <-].
Qed.

End Frames.

Lemma cache_wf_empty : cache_wf ∅.
Proof. apply lookup_empty. Qed.

(** ** Key resolution *)

(** C8 fails on the code.  [getItem] reads the cache object through its own
    [hasOwnProperty] method.  A token whose [kid] is "hasOwnProperty" makes
    [getPublicKey] store a key under that name; the second lookup of the same
    call already throws, and from then on the key cached under the test's
    identifier is not returned any more: every resolution throws a
    [TypeError].  A token whose [kid] is "__proto__" is never cached, so
    resolving it a second time fetches a second time. *)
Lemma shadowed_cache_hit_throws :
  let typeError :=
    TypeError "this.memoryCache.hasOwnProperty is not a function" in
  let s0 := MoreFixtures.warm in
  let s1 := snd (getPublicKey MoreFixtures.ext MoreFixtures.shadowToken s0) in
  let p1 := snd (getPublicKey MoreFixtures.ext MoreFixtures.protoToken s0) in
  let p2 := snd (getPublicKey MoreFixtures.ext MoreFixtures.protoToken p1) in
  getPublicKey MoreFixtures.ext Fixture.validToken s0
  = (Return (Some Fixture.fx_key), s0)
  ∧ fst (getPublicKey MoreFixtures.ext MoreFixtures.shadowToken s0)
    = Throw typeError
  ∧ cache s1 !! Fixture.fx_kid = Some Fixture.fx_key
  ∧ getPublicKey MoreFixtures.ext Fixture.validToken s1 = (Throw typeError, s1)
  ∧ fst (getPublicKey MoreFixtures.ext MoreFixtures.protoToken s0)
    = Return None
  ∧ fetch_count (trace p1) = S (fetch_count (trace s0))
  ∧ fetch_count (trace p2) = S (S (fetch_count (trace s0))).
Proof. vm_compute. repeat split. Qed.




(** C1 fails on the code: the loop of [getPublicKey] writes every fetched
    key under the requested identifier instead of the key's own.  With three
    keys [k1], [k2], [k3] published and [k1] requested on an empty cache, the
    cache ends up holding only [k3] under [k1]; resolving [k2] afterwards is
    a miss and fetches again. *)
Lemma sibling_keys_not_cached :
  let s0 := Fixture.loaded Fixture.baseValidatorOptions in
  let s1 := snd (getPublicKey Fixture.ext3 (Fixture.tokenSignedBy "k1") s0) in
  let s2 := snd (getPublicKey Fixture.ext3 (Fixture.tokenSignedBy "k2") s1) in
  cache s1 = {[ "k1" := Fixture.siblingKey "k3" ]}
  ∧ cache s1 !! "k2" = None
  ∧ cache s1 !! "k3" = None
  ∧ fetch_count (trace s1) = 1%nat
  ∧ fetch_count (trace s2) = 2%nat.
Proof. vm_compute. repeat split. Qed.

(** ** Construction *)

(** C2, as the specification states it, fails: a configuration that has a
    tenant and an audience but no [metadataDocumentUri] is constructed
    without an error. *)
Lemma constructor_accepts_missing_metadata_uri :
  metadataDocumentUri Fixture.noUriOptions = None
  ∧ fst (constructor Fixture.noUriOptions
           (Fixture.fresh Fixture.noUriOptions)) = Return tt.
Proof. split; reflexivity. Qed.

(** C2, amended. For every configuration whose [tenantId] or [audience] is
    missing (undefined or empty), construction throws an error that names
    the missing option, [tenantId] first, and neither the cache nor the trace
    of external calls changes; with both present construction succeeds,
    whatever [metadataDocumentUri] is. *)
Theorem constructor_requires_tenant_and_audience
    (opts : AzureAdTokenValidationOptions) (s : State) :
  let tenantMessage :=
    Js.dquote +:+ "tenantId" +:+ Js.dquote +:+ " value was not provided" in
  let audienceMessage :=
    Js.dquote +:+ "audience" +:+ Js.dquote +:+ " value was not provided" in
  (Js.truthy (tenantId opts) = false →
   fst (constructor opts s) = Throw (Error tenantMessage))
  ∧ (Js.truthy (tenantId opts) = true → Js.truthy (audience opts) = false →
     fst (constructor opts s) = Throw (Error audienceMessage))
  ∧ (Js.truthy (tenantId opts) = true → Js.truthy (audience opts) = true →
     constructor opts s
     = (Return tt,
        {| this := {| options := opts; metadata := None |};
           cache := cache s; trace := trace s |}))
  ∧ cache (snd (constructor opts s)) = cache s
  ∧ trace (snd (constructor opts s)) = trace s.
Proof.
  unfold constructor. run.
  destruct (Js.truthy (tenantId opts)), (Js.truthy (audience opts));
    simpl; repeat split; congruence.
Qed.

Lemma constructor_requires_tenant_and_audience_witness :
  fst (constructor Fixture.noTenantOptions
         (Fixture.fresh Fixture.baseValidatorOptions))
  = Throw (Error (Js.dquote +:+ "tenantId" +:+ Js.dquote
                  +:+ " value was not provided")).
Proof.
  destruct (constructor_requires_tenant_and_audience Fixture.noTenantOptions
              (Fixture.fresh Fixture.baseValidatorOptions)) as [Htenant _].
  apply Htenant. reflexivity.
Defined.

(** ** [validate] *)

(** Once a key is resolved, [validate] calls [verify] exactly once, as its
    last external call. *)
Lemma validate_verify_call (ext : Externals) (token : string)
    (s s0 s1 : State) (jwt : AzureAdToken) (publicKey : AzureAdKeyValue)
    (declared : string) :
  ensureMetadata ext s = (Return tt, s0) →
  jwt_decode ext token = Some jwt →
  getPublicKey ext jwt s0 = (Return (Some publicKey), s1) →
  alg (header jwt) = Some declared →
  trace (snd (validate ext token s))
  = (trace s1
     ++ [EvVerify token (secretOrPublicKey declared publicKey)
           (verifyOptionsOf (this s) declared)])%list
  ∧ forallb is_fetch (drop (List.length (trace s)) (trace s1)) = true.
Proof.
  intros Hmeta Hdecode Hkey Halg.
  rewrite validate_unfold, Hmeta, Hdecode, Hkey, Halg.
  apply ensureMetadata_frame in Hmeta as (Hopts0 & _ & evs0 & Ht0 & Hf0).
  apply getPublicKey_frame in Hkey as (Hthis1 & evs1 & Ht1 & Hf1).
  assert (verifyOptionsOf (this s1) declared
          = verifyOptionsOf (this s) declared) as Hvo.
  { unfold verifyOptionsOf. by rewrite Hthis1, Hopts0. }
  split.
  - simpl. rewrite Hvo.
    destruct (jwt_verify ext _ _ _ _) as [error|].
    + by destruct (instanceofJsonWebTokenError error).
    + by destruct (sv_isValid _).
  - rewrite Ht1, Ht0, <- app_assoc, drop_app_length.
    rewrite forallb_app. by rewrite Hf0, Hf1.
Qed.

(** C4. When [validate] reaches verification, the verifier is called once,
    with the algorithm list holding only the algorithm declared in the
    token's header, the configured audience, and the configured
    [validIssuers] as issuer constraint, which is absent exactly when
    [validIssuers] is absent; the calls made before it are fetches only.
    For a header that declares no algorithm the verifier is not called at
    all. *)
Theorem verify_called_with_pinned_options (ext : Externals) (token : string)
    (s s0 s1 : State) (jwt : AzureAdToken) (publicKey : AzureAdKeyValue) :
  ensureMetadata ext s = (Return tt, s0) →
  jwt_decode ext token = Some jwt →
  getPublicKey ext jwt s0 = (Return (Some publicKey), s1) →
  (∀ declared,
     alg (header jwt) = Some declared →
     ∃ key vopts,
       trace (snd (validate ext token s))
       = (trace s1 ++ [EvVerify token key vopts])%list
       ∧ forallb is_fetch (drop (List.length (trace s)) (trace s1)) = true
       ∧ algorithms vopts = [declared]
       ∧ verify_audience vopts = audience (options (this s))
       ∧ issuer vopts = validIssuers (options (this s))
       ∧ (issuer vopts = None ↔ validIssuers (options (this s)) = None))
  ∧ (alg (header jwt) = None → trace (snd (validate ext token s)) = trace s1).
Proof.
  intros Hmeta Hdecode Hkey. split.
  - intros declared Halg.
    destruct (validate_verify_call ext token s s0 s1 jwt publicKey declared)
      as [Htrace Hfetches]; [done..|].
    exists (secretOrPublicKey declared publicKey),
      (verifyOptionsOf (this s) declared).
    repeat split; done.
  - intros Halg. by rewrite validate_unfold, Hmeta, Hdecode, Hkey, Halg.
Qed.

Lemma verify_called_with_pinned_options_witness :
  ∃ key vopts,
    trace (snd (validate Fixture.ext "valid.jwt"
                  (Fixture.fresh Fixture.baseValidatorOptions)))
    = (trace (snd (getPublicKey Fixture.ext Fixture.validToken
                     (snd (ensureMetadata Fixture.ext
                             (Fixture.fresh Fixture.baseValidatorOptions)))))
       ++ [EvVerify "valid.jwt" key vopts])%list
    ∧ algorithms vopts = ["HS256"]
    ∧ verify_audience vopts = Some Fixture.fx_audience
    ∧ issuer vopts = None.
Proof.
  destruct (verify_called_with_pinned_options Fixture.ext "valid.jwt"
              (Fixture.fresh Fixture.baseValidatorOptions)
              (snd (ensureMetadata Fixture.ext
                      (Fixture.fresh Fixture.baseValidatorOptions)))
              (snd (getPublicKey Fixture.ext Fixture.validToken
                      (snd (ensureMetadata Fixture.ext
                              (Fixture.fresh Fixture.baseValidatorOptions)))))
              Fixture.validToken Fixture.fx_key)
    as [Hcall _]; [vm_compute; reflexivity..|].
  destruct (Hcall "HS256")
    as (key & vopts & Htrace & _ & Halg & Haud & Hiss & _); [reflexivity|].
  exists key, vopts. repeat split; assumption.
Defined.

(** C6. When [validate] reaches verification with a key that has a first
    certificate value, the key material handed to the verifier is that value
    between the PEM certificate delimiters if the token's declared algorithm
    begins with "RS", and that value itself otherwise. *)
Theorem verification_key_material (ext : Externals) (token : string)
    (s s0 s1 : State) (jwt : AzureAdToken) (publicKey : AzureAdKeyValue)
    (declared first : string) (others : list string) :
  ensureMetadata ext s = (Return tt, s0) →
  jwt_decode ext token = Some jwt →
  getPublicKey ext jwt s0 = (Return (Some publicKey), s1) →
  alg (header jwt) = Some declared →
  x5c publicKey = first :: others →
  ∃ vopts,
    trace (snd (validate ext token s))
    = (trace s1
       ++ [EvVerify token
             (Some (if String.prefix "RS" declared
                    then pemCertificate first else first))
             vopts])%list.
Proof.
  intros Hmeta Hdecode Hkey Halg Hx5c.
  destruct (validate_verify_call ext token s s0 s1 jwt publicKey declared)
    as [Htrace _]; [done..|].
  exists (verifyOptionsOf (this s) declared). rewrite Htrace.
  do 3 f_equal. unfold secretOrPublicKey. rewrite Hx5c. simpl.
  destruct (String.prefix "RS" declared) eqn:Hprefix.
  - apply indexOf_zero_prefix in Hprefix. by rewrite Hprefix.
  - destruct (Z.eqb_spec (Js.indexOf declared "RS") 0) as [Hz|Hz];
      [|done].
    apply indexOf_zero_prefix in Hz. congruence.
Qed.

Lemma verification_key_material_witness :
  ∃ vopts,
    trace (snd (validate Fixture.ext3 "k1.jwt"
                  (Fixture.loaded Fixture.baseValidatorOptions)))
    = [EvGet (Some "/keys?appid=ce5da148-28fd-5850-84a6-592b046d3bf9");
       EvVerify "k1.jwt" (Some (pemCertificate "cert-k3")) vopts].
Proof.
  destruct (verification_key_material Fixture.ext3 "k1.jwt"
              (Fixture.loaded Fixture.baseValidatorOptions)
              (Fixture.loaded Fixture.baseValidatorOptions)
              (snd (getPublicKey Fixture.ext3 (Fixture.tokenSignedBy "k1")
                      (Fixture.loaded Fixture.baseValidatorOptions)))
              (Fixture.tokenSignedBy "k1") (Fixture.siblingKey "k3")
              "RS256" "cert-k3" [])
    as (vopts & Htrace); [vm_compute; reflexivity..|].
  exists vopts. exact Htrace.
Defined.

(** C3 fails on the code.  A token whose header declares no algorithm
    decodes; once its key is resolved, [header.alg.indexOf] throws a
    [TypeError] inside the [try] block, which is not a [JsonWebTokenError]
    and is thrown on: [validate] throws for a malformed token instead of
    returning an invalid result.  A token whose [kid] is "hasOwnProperty"
    makes [validate] throw as well, and after it every token with a [kid],
    the test's valid token included. *)
Lemma missing_alg_throws_TypeError :
  let s0 := MoreFixtures.warm in
  let s1 := snd (validate MoreFixtures.ext "shadow.jwt" s0) in
  fst (validate MoreFixtures.ext "valid.jwt" s0)
  = Return {| accessToken := "valid.jwt";
              decodedAccessToken := Some Fixture.validToken;
              isValid := true; validationMessage := None |}
  ∧ jwt_decode MoreFixtures.ext "noalg.jwt" = Some MoreFixtures.noAlgToken
  ∧ validate MoreFixtures.ext "noalg.jwt" s0
    = (Throw (TypeError
                "Cannot read properties of undefined (reading 'indexOf')"),
       s0)
  ∧ fst (validate MoreFixtures.ext "shadow.jwt" s0)
    = Throw (TypeError "this.memoryCache.hasOwnProperty is not a function")
  ∧ fst (validate MoreFixtures.ext "valid.jwt" s1)
    = Throw (TypeError "this.memoryCache.hasOwnProperty is not a function").
Proof. vm_compute. repeat split. Qed.

(** C10. Every result of [validateRules], and every result returned by
    [validate], carries a message exactly when it is not valid, and no
    message exactly when it is valid. *)
Theorem message_present_iff_invalid :
  (∀ (T : Type) (value : T) (rules : list (SimpleValidationRule T)),
     let result := validateRules value rules in
     (is_Some (sv_validationMessage result) ↔ sv_isValid result = false)
     ∧ (sv_validationMessage result = None ↔ sv_isValid result = true))
  ∧ (∀ (ext : Externals) (token : string) (s s' : State)
       (result : AzureAdTokenValidationResult),
       validate ext token s = (Return result, s') →
       (is_Some (validationMessage result) ↔ isValid result = false)
       ∧ (validationMessage result = None ↔ isValid result = true)).
Proof.
  assert (Hbool : ∀ (m : option string) (b : bool),
             (is_Some m ↔ b = false) → (m = None ↔ b = true)).
  { intros m b H. rewrite eq_None_not_Some, H. by destruct b. }
  split.
  - intros T value rules result.
    pose proof (validateRules_message_iff value rules) as H. split; auto.
  - intros ext token s s' result.
    assert (∀ t d m, is_Some (validationMessage
                                {| accessToken := t; decodedAccessToken := d;
                                   isValid := false;
                                   validationMessage := Some m |})
                     ↔ false = false) as Hinvalid by (split; eauto).
    rewrite validate_unfold.
    destruct (ensureMetadata ext s) as [[[]|e] s0]; [|done].
    destruct (jwt_decode ext token) as [jwt|];
      [|intros [= <- <-]; split; [|apply Hbool]; apply Hinvalid].
    destruct (getPublicKey ext jwt s0) as [[[publicKey|]|e] s1];
      [| intros [= <- <-]; split; [|apply Hbool]; apply Hinvalid | done].
    destruct (alg (header jwt)) as [declared|]; [|done].
    simpl. destruct (jwt_verify ext _ _ _ _) as [error|].
    + destruct (instanceofJsonWebTokenError error); [|done].
      intros [= <- <-]. split; [|apply Hbool]; apply Hinvalid.
    + pose proof (validateRules_message_iff (payload jwt)
                    [tenantRule (tenantId (options (this s1)));
                     applicationRule (allowedApplicationIds (options (this s1)));
                     scopesRule (requiredScopes (options (this s1)))]) as Hrules.
      fold (validateAdditionalClaims (payload jwt) (options (this s1)))
        in Hrules.
      destruct (sv_isValid _) eqn:Hvalid; intros [= <- <-]; simpl.
      * split; [|done]. split; [by intros [? ?]|done].
      * split; [|apply Hbool]; simpl; split; try done;
          intros _; by apply Hrules.
Qed.

Lemma message_present_iff_invalid_witness :
  validationMessage
    {| accessToken := "valid.jwt";
       decodedAccessToken := Some Fixture.validToken;
       isValid := true; validationMessage := None |} = None.
Proof.
  destruct message_present_iff_invalid as [_ Hvalidate].
  apply (Hvalidate Fixture.ext "valid.jwt"
           (Fixture.fresh Fixture.baseValidatorOptions)
           (snd (validate Fixture.ext "valid.jwt"
                   (Fixture.fresh Fixture.baseValidatorOptions)))).
  - vm_compute. reflexivity.
  - reflexivity.
Defined.

(** * Further properties of the code *)

(** ** [SimpleCache] *)

(** X1. On a cache object whose [hasOwnProperty] is not shadowed, a value
    stored with [setItem] under a key other than "__proto__" and
    "hasOwnProperty" is what [getItem] returns for that key; storing under a
    key other than "hasOwnProperty" does not affect what [getItem] gives for
    the other keys; a second [setItem] under the same key replaces the
    first; a key never stored gives [undefined].  Storing under "__proto__"
    stores nothing, and after storing under "hasOwnProperty" every
    [getItem] throws a [TypeError]. *)
Theorem SimpleCache_set_then_get {T : Type} (memoryCache : gmap string T)
    (key : string) (value : T) :
  (key ≠ "__proto__" → key ≠ "hasOwnProperty" →
   memoryCache !! "hasOwnProperty" = None →
   SimpleCache.getItem (SimpleCache.setItem memoryCache key value) key
   = Return (Some value))
  ∧ (key ≠ "hasOwnProperty" →
     ∀ other, other ≠ key →
       SimpleCache.getItem (SimpleCache.setItem memoryCache key value) other
       = SimpleCache.getItem memoryCache other)
  ∧ (∀ value',
       SimpleCache.setItem (SimpleCache.setItem memoryCache key value)
         key value'
       = SimpleCache.setItem memoryCache key value')
  ∧ SimpleCache.getItem (∅ : gmap string T) key = Return None
  ∧ (memoryCache !! "__proto__" = None →
     SimpleCache.setItem memoryCache "__proto__" value = memoryCache)
  ∧ (∀ other,
       SimpleCache.getItem
         (SimpleCache.setItem memoryCache "hasOwnProperty" value) other
       = Throw (TypeError
                  "this.memoryCache.hasOwnProperty is not a function")).
Proof.
  split; [|split; [|split; [|split; [|split]]]].
  - intros Hproto Hshadow Hown. rewrite setItem_ordinary by done.
    apply getItem_Return. split; [|apply lookup_insert_eq].
    by rewrite lookup_insert_ne.
  - intros Hshadow other Hother.
    assert (∀ k, k ≠ key →
              SimpleCache.setItem memoryCache key value !! k
              = memoryCache !! k) as Hsame.
    { intros k Hk. unfold SimpleCache.setItem.
      destruct (String.eqb key "__proto__"); [|by apply lookup_insert_ne].
      destruct (memoryCache !! "__proto__"); [|done].
      by apply lookup_insert_ne. }
    unfold SimpleCache.getItem, SimpleCache.shadowed.
    by rewrite !Hsame by done.
  - intros value'. unfold SimpleCache.setItem.
    destruct (String.eqb_spec key "__proto__") as [->|Hproto].
    + destruct (memoryCache !! "__proto__") eqn:Hown.
      * rewrite lookup_insert_eq. apply insert_insert_eq.
      * by rewrite Hown.
    + apply insert_insert_eq.
  - done.
  - apply setItem_proto.
  - intros other. apply getItem_Throw. split; [|done].
    rewrite setItem_ordinary by done. rewrite lookup_insert_eq. by eexists.
Qed.

Lemma SimpleCache_set_then_get_witness :
  SimpleCache.getItem (SimpleCache.setItem (∅ : gmap string string) "X" "value")
    "X"
  = Return (Some "value").
Proof.
  destruct (SimpleCache_set_then_get (∅ : gmap string string) "X" "value")
    as (Hsame & _).
  apply Hsame; [discriminate | discriminate | reflexivity].
Defined.

(** ** [validateRules] *)

(** X2. [validateRules] answers valid exactly when every rule of the list
    accepts the value; in particular the empty list of rules accepts
    everything. *)
Theorem validateRules_valid_iff {T : Type} (value : T)
    (rules : list (SimpleValidationRule T)) :
  sv_isValid (validateRules value rules) = true
  ↔ ∀ rule, rule ∈ rules → rule_validate rule value = true.
Proof.
  induction rules as [|r rest IH]; simpl.
  - split; [|done]. intros _ rule Hin. by apply elem_of_nil in Hin.
  - destruct (rule_validate r value) eqn:Hr; simpl.
    + rewrite IH. split.
      * intros H rule [->|Hin]%elem_of_cons; [done|by apply H].
      * intros H rule Hin. apply H. by right.
    + split; [done|]. intros H. rewrite <- Hr. apply H. by left.
Qed.

Lemma validateRules_valid_iff_witness :
  sv_isValid (validateRules "#YES" MoreFixtures.validationRules) = true.
Proof.
  apply validateRules_valid_iff.
  intros rule Hin. unfold MoreFixtures.validationRules in Hin.
  apply elem_of_cons in Hin as [->|Hin]; [reflexivity|].
  apply list_elem_of_singleton in Hin as ->. reflexivity.
Defined.

(** X3. When [validateRules] answers invalid, the list of rules splits into
    rules that accept the value, one rule that rejects it, and the rest; the
    message of the result is the message of that first rejecting rule. *)
Theorem validateRules_invalid_first_rejecting {T : Type} (value : T)
    (rules : list (SimpleValidationRule T)) :
  sv_isValid (validateRules value rules) = false →
  ∃ accepting rejecting rest,
    rules = (accepting ++ rejecting :: rest)%list
    ∧ (∀ rule, rule ∈ accepting → rule_validate rule value = true)
    ∧ rule_validate rejecting value = false
    ∧ validateRules value rules
      = {| sv_isValid := false;
           sv_validationMessage := Some (invalidMessage rejecting) |}.
Proof.
  induction rules as [|r rest IH]; simpl; [done|].
  destruct (rule_validate r value) eqn:Hr; simpl.
  - intros (accepting & rejecting & rest' & -> & Hacc & Hrej & Hres)%IH.
    exists (r :: accepting), rejecting, rest'. split; [done|].
    split; [|by split].
    intros rule [->|Hin]%elem_of_cons; [done|by apply Hacc].
  - intros _. exists [], r, rest. split; [done|]. split; [|by split].
    intros rule Hin. by apply elem_of_nil in Hin.
Qed.

Lemma validateRules_invalid_first_rejecting_witness :
  ∃ accepting rejecting rest,
    MoreFixtures.validationRules = (accepting ++ rejecting :: rest)%list
    ∧ (∀ rule, rule ∈ accepting → rule_validate rule "NO" = true)
    ∧ rule_validate rejecting "NO" = false
    ∧ validateRules "NO" MoreFixtures.validationRules
      = {| sv_isValid := false;
           sv_validationMessage := Some (invalidMessage rejecting) |}.
Proof.
  apply (validateRules_invalid_first_rejecting "NO"
           MoreFixtures.validationRules).
  reflexivity.
Defined.

(** ** The rules of [validateAdditionalClaims] *)

(** [xs.indexOf(x) >= 0] says that [x] is an element of [xs]. *)
Lemma arrayIndexOf_found (xs : list string) (x : string) :
  0 <= Js.arrayIndexOf xs (Some x) ↔ x ∈ xs.
Proof.
  induction xs as [|y ys IH]; simpl.
  - split; [lia|]. intros H. by apply elem_of_nil in H.
  - rewrite elem_of_cons. destruct (String.eqb_spec y x) as [->|Hne].
    + split; [by left|lia].
    + destruct (Z.ltb_spec (Js.arrayIndexOf ys (Some x)) 0) as [Hlt|Hge].
      * split; [lia|]. intros [->|Hin]; [done|]. apply IH in Hin. lia.
      * split; [|lia]. intros _. right. apply IH. lia.
Qed.

(** X4. The tenant rule accepts a payload exactly when its [tid] claim is
    present, is not the empty string, and is the configured tenant. *)
Theorem tenantRule_accepts_iff (tenant : option string)
    (tokenPayload : AzureAdTokenPayload) :
  rule_validate (tenantRule tenant) tokenPayload = true
  ↔ ∃ t, t ≠ EmptyString ∧ tid tokenPayload = Some t ∧ tenant = Some t.
Proof.
  simpl. rewrite andb_true_iff, truthy_Some, strict_eq_true. split.
  - intros [(t & Ht & Hne) Heq]. exists t. repeat split; congruence.
  - intros (t & Hne & Ht & Htenant). split; [eauto|congruence].
Qed.

Lemma tenantRule_accepts_iff_witness :
  rule_validate (tenantRule (Some Fixture.fx_tenantId))
    (payload Fixture.validToken) = true.
Proof.
  apply tenantRule_accepts_iff. exists Fixture.fx_tenantId.
  split; [discriminate|]. split; reflexivity.
Defined.

(** X5. The application rule accepts every payload when the allow-list is
    absent or empty; otherwise it accepts exactly when the allow-list holds
    the payload's application identifier, which is the [azp] claim if that
    is present and not empty, the [appid] claim otherwise, and which must
    not be empty.  A non-empty [azp] outside the list is rejected even with
    an allowed [appid]. *)
Theorem applicationRule_accepts_iff (allowed : option (list string))
    (tokenPayload : AzureAdTokenPayload) :
  (rule_validate (applicationRule allowed) tokenPayload = true
   ↔ allowed = None ∨ allowed = Some []
     ∨ ∃ ids id, allowed = Some ids ∧ id ≠ EmptyString ∧ id ∈ ids
                 ∧ (azp tokenPayload = Some id
                    ∨ (Js.truthy (azp tokenPayload) = false
                       ∧ appid tokenPayload = Some id)))
  ∧ (∀ ids a, allowed = Some ids → ids ≠ [] →
       azp tokenPayload = Some a → a ≠ EmptyString → a ∉ ids →
       rule_validate (applicationRule allowed) tokenPayload = false).
Proof.
  assert (Hor : ∀ id, id ≠ EmptyString →
            (Js.or (azp tokenPayload) (appid tokenPayload) = Some id
             ↔ azp tokenPayload = Some id
               ∨ (Js.truthy (azp tokenPayload) = false
                  ∧ appid tokenPayload = Some id))).
  { intros id Hid. unfold Js.or.
    destruct (Js.truthy (azp tokenPayload)) eqn:Hazp.
    - split; [by left|]. intros [?|[? ?]]; done.
    - split; [by right|]. intros [Heq|[_ ?]]; [|done].
      rewrite Heq in Hazp. simpl in Hazp.
      apply negb_false_iff, String.eqb_eq in Hazp. done. }
  assert (Hiff : ∀ ids, ids ≠ [] →
            (rule_validate (applicationRule (Some ids)) tokenPayload = true
             ↔ ∃ id, id ≠ EmptyString ∧ id ∈ ids
                     ∧ Js.or (azp tokenPayload) (appid tokenPayload)
                       = Some id)).
  { intros ids Hids. simpl. destruct ids as [|i ids']; [done|].
    change (Z.of_nat (List.length (i :: ids')) =? 0) with false.
    rewrite orb_false_l, andb_true_iff, truthy_Some, Z.leb_le. split.
    - intros [(id & Heq & Hne) Hfound]. rewrite Heq in Hfound.
      apply arrayIndexOf_found in Hfound. eauto.
    - intros (id & Hne & Hin & Heq). rewrite Heq.
      split; [eauto|]. by apply arrayIndexOf_found. }
  split; [split|].
  - destruct allowed as [[|i ids']|]; [auto| |auto]. intros H.
    apply Hiff in H as (id & Hne & Hin & Heq); [|done].
    right. right. exists (i :: ids'), id. repeat split; [done..|].
    by apply Hor.
  - intros [->|[->|(ids & id & -> & Hne & Hin & Hcases)]]; [done..|].
    destruct ids as [|i ids']; [done|]. apply Hiff; [done|].
    exists id. repeat split; [done..|]. by apply Hor.
  - intros ids a -> Hids Hazp Ha Hnotin. apply not_true_is_false.
    intros (id & Hne & Hin & Heq)%Hiff; [|done].
    apply Hor in Heq as [Heq|[Hfalse _]]; [|  |done].
    + congruence.
    + rewrite Hazp in Hfalse. simpl in Hfalse.
      apply negb_false_iff, String.eqb_eq in Hfalse. done.
Qed.

Lemma applicationRule_accepts_iff_witness :
  rule_validate (applicationRule (Some [Fixture.fx_appid]))
    (payload MoreFixtures.azpToken) = false
  ∧ rule_validate (applicationRule (Some [Fixture.fx_appid]))
      (payload Fixture.validToken) = true.
Proof.
  split.
  - destruct (applicationRule_accepts_iff (Some [Fixture.fx_appid])
                (payload MoreFixtures.azpToken)) as [_ Hazp].
    apply (Hazp [Fixture.fx_appid] "11111111-2222-3333-4444-555555555555");
      [reflexivity | discriminate | reflexivity | discriminate |].
    intros Hin. apply list_elem_of_singleton in Hin. discriminate.
  - destruct (applicationRule_accepts_iff (Some [Fixture.fx_appid])
                (payload Fixture.validToken)) as [[_ Hallowed] _].
    apply Hallowed. right. right.
    exists [Fixture.fx_appid], Fixture.fx_appid.
    split; [reflexivity|]. split; [discriminate|].
    split; [by apply list_elem_of_singleton|].
    right. split; reflexivity.
Defined.

(** ** How the stages move the state *)

Lemma fetch_count_app (t1 t2 : list Event) :
  fetch_count (t1 ++ t2) = (fetch_count t1 + fetch_count t2)%nat.
Proof. unfold fetch_count. by rewrite List.filter_app, length_app. Qed.

Lemma fetch_count_snoc_get (t : list Event) (url : option string) :
  fetch_count (t ++ [EvGet url]) = S (fetch_count t).
Proof. rewrite fetch_count_app. unfold fetch_count. simpl. lia. Qed.

Lemma fetch_count_snoc_verify (t : list Event) (token : string)
    (key : option string) (vopts : VerifyOptions) :
  fetch_count (t ++ [EvVerify token key vopts]) = fetch_count t.
Proof. rewrite fetch_count_app. unfold fetch_count. simpl. lia. Qed.

Lemma formattedError_is_Error (ext : Externals) (error : Thrown)
    (defaultErrorMessage : option string) :
  ∃ message, formattedError ext error defaultErrorMessage = Error message.
Proof.
  destruct error as [m [resp|] [req|]| | | | |]; simpl; eauto.
Qed.

(** [ensureMetadata] makes no call on a loaded validator and one fetch
    otherwise; it never touches the cache. *)
Lemma ensureMetadata_step (ext : Externals) (s s0 : State)
    (c : Completion unit) :
  ensureMetadata ext s = (c, s0) →
  cache s0 = cache s ∧ options (this s0) = options (this s)
  ∧ ((is_Some (metadata (this s)) ∧ s0 = s ∧ c = Return tt)
     ∨ (metadata (this s) = None
        ∧ trace s0
          = (trace s ++ [EvGet (metadataDocumentUri (options (this s)))])%list
        ∧ ((∃ d, http_metadata ext (trace s)
                   (metadataDocumentUri (options (this s))) = Return d
                 ∧ c = Return tt ∧ metadata (this s0) = Some d)
           ∨ (∃ e0, http_metadata ext (trace s)
                      (metadataDocumentUri (options (this s))) = Throw e0
                    ∧ c = Throw (formattedError ext e0 None)
                    ∧ this s0 = this s)))).
Proof.
  rewrite ensureMetadata_unfold.
  destruct (metadata (this s)) as [doc|] eqn:Hdoc.
  - intros [= <- <-]. repeat split. left. eauto.
  - simpl. destruct (http_metadata ext (trace s) _) as [d|e0] eqn:Hhttp;
      intros [= <- <-]; simpl; repeat split; right; repeat split; eauto.
Qed.

(** [getPublicKey] leaves the validator alone; either it makes no call and
    leaves the cache alone, or it makes one fetch and writes at most one
    entry, under an identifier that had none. *)
Lemma getPublicKey_step (ext : Externals) (jwt : AzureAdToken)
    (s s1 : State) (c : Completion (option AzureAdKeyValue)) :
  getPublicKey ext jwt s = (c, s1) →
  this s1 = this s
  ∧ ((trace s1 = trace s ∧ cache s1 = cache s)
     ∨ ∃ k,
         header_kid (header jwt) = Some k ∧ k ≠ EmptyString
         ∧ cache s !! k = None
         ∧ trace s1
           = (trace s
              ++ [EvGet (Some (keysUrl (this s)
                                 (applicationIdOf (payload jwt))))])%list
         ∧ (cache s1 = cache s
            ∨ ∃ d key,
                http_keys ext (trace s)
                  (keysUrl (this s) (applicationIdOf (payload jwt)))
                = Return d
                ∧ last (keys d) = Some key
                ∧ cache s1 = <[k := key]> (cache s))).
Proof.
  destruct (getPublicKey_cases ext jwt s)
    as [H | [(k & e & _ & _ & _ & H) | [(k & key & _ & _ & _ & H)
                                       | (k & Hk & Hne & Hc)]]].
  - rewrite H. intros [= <- <-]. split; [done|]. by left.
  - rewrite H. intros [= <- <-]. split; [done|]. by left.
  - rewrite H. intros [= <- <-]. split; [done|]. by left.
  - rewrite (getPublicKey_miss ext jwt k s Hk Hne Hc). simpl.
    apply getItem_Return in Hc as [_ Hc]. unfold applicationIdOf.
    destruct (http_keys ext (trace s) _) as [d|e0] eqn:Hhttp;
      intros [= _ <-]; simpl; (split; [done|]); right; exists k;
      repeat split; try done; [|by left].
    destruct (String.eqb k "__proto__"); [by left|].
    destruct (last (keys d)) as [key|] eqn:Hlast; [|by left].
    right. by exists d, key.
Qed.

(** Where [validate] stops: after the metadata stage, after key resolution,
    or after the one call of [verify]. *)
Lemma validate_stops (ext : Externals) (token : string) (s s' : State)
    (r : Completion AzureAdTokenValidationResult) :
  validate ext token s = (r, s') →
  ∃ c0 s0,
    ensureMetadata ext s = (c0, s0)
    ∧ (s' = s0
       ∨ ∃ jwt c1 s1,
           c0 = Return tt ∧ jwt_decode ext token = Some jwt
           ∧ getPublicKey ext jwt s0 = (c1, s1)
           ∧ (s' = s1
              ∨ ∃ publicKey declared,
                  c1 = Return (Some publicKey)
                  ∧ alg (header jwt) = Some declared
                  ∧ s' = {| this := this s1; cache := cache s1;
                            trace :=
                              (trace s1
                               ++ [EvVerify token
                                     (secretOrPublicKey declared publicKey)
                                     (verifyOptionsOf (this s1)
                                        declared)])%list
                         |})).
Proof.
  rewrite validate_unfold.
  destruct (ensureMetadata ext s) as [[[]|e] s0] eqn:Hmeta;
    [|intros [= <- <-]; eauto].
  destruct (jwt_decode ext token) as [jwt|] eqn:Hdecode;
    [|intros [= <- <-]; eauto].
  destruct (getPublicKey ext jwt s0) as [c1 s1] eqn:Hkey. intros Hrun.
  exists (Return tt), s0. split; [done|].
  right. exists jwt, c1, s1. do 3 (split; [done|]).
  destruct c1 as [[publicKey|]|e]; [|injection Hrun as <- <-; by left..].
  destruct (alg (header jwt)) as [declared|] eqn:Halg;
    [|injection Hrun as <- <-; by left].
  right. exists publicKey, declared. do 2 (split; [done|]). simpl in Hrun.
  destruct (jwt_verify ext _ _ _ _) as [error|].
  - by destruct (instanceofJsonWebTokenError error); injection Hrun as <- <-.
  - by destruct (sv_isValid _); injection Hrun as <- <-.
Qed.

(** ** Key resolution: the remaining cases *)

(** X6. [getPublicKey] returns [undefined] in exactly these situations:
    the token's header has no (or an empty) [kid], and then nothing is
    fetched and the state is unchanged; or the lookup of the [kid] in the
    cache returns [undefined], the key set is fetched, and either the answer
    holds no key or the [kid] is "__proto__" (under which nothing is
    stored), and then one fetch is made and the cache is unchanged. *)
Theorem key_unresolved_iff (ext : Externals) (jwt : AzureAdToken)
    (s s1 : State) :
  getPublicKey ext jwt s = (Return None, s1)
  ↔ (Js.truthy (header_kid (header jwt)) = false ∧ s1 = s)
    ∨ ∃ k d,
        header_kid (header jwt) = Some k ∧ k ≠ EmptyString
        ∧ SimpleCache.getItem (cache s) k = Return None
        ∧ http_keys ext (trace s)
            (keysUrl (this s) (applicationIdOf (payload jwt))) = Return d
        ∧ (keys d = [] ∨ k = "__proto__")
        ∧ s1 = {| this := this s; cache := cache s;
                  trace :=
                    (trace s
                     ++ [EvGet (Some (keysUrl (this s)
                                        (applicationIdOf (payload jwt))))])%list
               |}.
Proof.
  unfold applicationIdOf. split.
  - destruct (Js.truthy (header_kid (header jwt))) eqn:Htruthy.
    + apply truthy_Some in Htruthy as (k & Hk & Hne).
      destruct (SimpleCache.getItem (cache s) k) as [[key|]|e] eqn:Hc.
      * by rewrite (getPublicKey_hit ext jwt k key s Hk Hne Hc).
      * rewrite (getPublicKey_miss ext jwt k s Hk Hne Hc). simpl.
        destruct (http_keys ext (trace s) _) as [d|e0] eqn:Hhttp; [|done].
        destruct (String.eqb_spec k "__proto__") as [->|Hproto].
        { intros [= _ <-]. right. exists "__proto__", d.
          repeat split; auto. }
        destruct (last (keys d)) as [pk|] eqn:Hlast.
        { intros [= [_ Hstored]%getItem_Return _].
          by rewrite lookup_insert_eq in Hstored. }
        intros [= _ <-]. right. exists k, d.
        apply last_None in Hlast. repeat split; auto.
      * by rewrite (getPublicKey_shadowed ext jwt k e s Hk Hne Hc).
    + rewrite (getPublicKey_no_kid ext jwt s Htruthy).
      intros [= <-]. by left.
  - intros [[Htruthy ->]
           | (k & d & Hk & Hne & Hc & Hhttp & Hnothing & ->)].
    + by apply getPublicKey_no_kid.
    + rewrite (getPublicKey_miss ext jwt k s Hk Hne Hc). simpl.
      rewrite Hhttp.
      assert ((if String.eqb k "__proto__" then cache s
               else match last (keys d) with
                    | Some pk => <[k := pk]> (cache s)
                    | None => cache s
                    end) = cache s) as ->.
      { destruct Hnothing as [->| ->]; [|done].
        by destruct (String.eqb k "__proto__"). }
      by rewrite Hc.
Qed.

Lemma key_unresolved_iff_witness :
  getPublicKey MoreFixtures.ext MoreFixtures.noKidToken
    (Fixture.loaded Fixture.baseValidatorOptions)
  = (Return None, Fixture.loaded Fixture.baseValidatorOptions)
  ∧ fst (getPublicKey MoreFixtures.ext MoreFixtures.protoToken
           (Fixture.loaded Fixture.baseValidatorOptions))
    = Return None.
Proof.
  split.
  - apply key_unresolved_iff. left. split; reflexivity.
  - erewrite (proj2 (key_unresolved_iff MoreFixtures.ext
                       MoreFixtures.protoToken
                       (Fixture.loaded Fixture.baseValidatorOptions) _));
      [reflexivity|].
    right. exists "__proto__", {| keys := [Fixture.fx_key] |}.
    split; [reflexivity|]. split; [discriminate|].
    split; [reflexivity|]. split; [reflexivity|].
    split; [by right|reflexivity].
Defined.

(** X7. On a cache miss (the lookup of the [kid] returns [undefined])
    [getPublicKey] makes exactly one fetch, to the
    [jwks_uri] of the discovery document followed by [?appid=] and the
    application identifier of the payload: the [azp] claim if it is present
    and not empty, the [appid] claim otherwise; a payload with neither is
    fetched with the text [undefined], and so is a validator without
    discovery document. *)
Theorem key_fetch_url (ext : Externals) (jwt : AzureAdToken) (k : string)
    (s s1 : State) (c : Completion (option AzureAdKeyValue)) :
  header_kid (header jwt) = Some k → k ≠ EmptyString →
  SimpleCache.getItem (cache s) k = Return None →
  getPublicKey ext jwt s = (c, s1) →
  let base := match metadata (this s) with
              | Some document => jwks_uri document
              | None => "undefined"
              end in
  let fetched (id : string) :=
    trace s1 = (trace s ++ [EvGet (Some (base +:+ "?appid=" +:+ id))])%list in
  (∀ a, azp (payload jwt) = Some a → a ≠ EmptyString → fetched a)
  ∧ (∀ a, Js.truthy (azp (payload jwt)) = false →
          appid (payload jwt) = Some a → fetched a)
  ∧ (Js.truthy (azp (payload jwt)) = false →
     appid (payload jwt) = None → fetched "undefined")
  ∧ fetch_count (trace s1) = S (fetch_count (trace s)).
Proof.
  intros Hk Hne Hc Hrun base fetched.
  assert (trace s1
          = (trace s
             ++ [EvGet (Some (base +:+ "?appid="
                              +:+ Js.template
                                    (Js.or (azp (payload jwt))
                                           (appid (payload jwt)))))])%list)
    as Htrace.
  { rewrite (getPublicKey_miss ext jwt k s Hk Hne Hc) in Hrun. simpl in Hrun.
    unfold keysUrl in Hrun. subst base.
    destruct (metadata (this s)) as [document|];
      by destruct (http_keys ext (trace s) _); injection Hrun as _ <-. }
  unfold fetched. rewrite Htrace. unfold Js.or. repeat split.
  - intros a -> Ha. simpl. by apply String.eqb_neq in Ha as ->.
  - by intros a -> ->.
  - by intros -> ->.
  - apply fetch_count_snoc_get.
Qed.

Lemma key_fetch_url_witness :
  trace (snd (getPublicKey MoreFixtures.extNoKeys MoreFixtures.azpToken
                (Fixture.loaded Fixture.baseValidatorOptions)))
  = [EvGet (Some "/keys?appid=11111111-2222-3333-4444-555555555555")].
Proof.
  destruct (key_fetch_url MoreFixtures.extNoKeys MoreFixtures.azpToken
              Fixture.fx_kid (Fixture.loaded Fixture.baseValidatorOptions)
              (snd (getPublicKey MoreFixtures.extNoKeys MoreFixtures.azpToken
                      (Fixture.loaded Fixture.baseValidatorOptions)))
              (Return None))
    as (Hazp & _); [reflexivity | discriminate | reflexivity | reflexivity |].
  apply (Hazp "11111111-2222-3333-4444-555555555555");
    [reflexivity | discriminate].
Defined.

(** ** Failures of the identity provider *)

(** X8. When the validator has no discovery document and fetching it fails,
    [validate] throws a plain [Error] built from the failure, without
    decoding the token or calling the verifier; the validator still has no
    discovery document afterwards (so the next call fetches again) and the
    cache is unchanged. *)
Theorem discovery_failure_propagates (ext : Externals) (token : string)
    (s : State) (e0 : Thrown) :
  metadata (this s) = None →
  http_metadata ext (trace s) (metadataDocumentUri (options (this s)))
  = Throw e0 →
  validate ext token s
  = (Throw (formattedError ext e0 None),
     {| this := this s; cache := cache s;
        trace :=
          (trace s ++ [EvGet (metadataDocumentUri (options (this s)))])%list
     |})
  ∧ (∃ message, formattedError ext e0 None = Error message)
  ∧ (instanceofError e0 = false → (∀ text, e0 ≠ ThrownString text) →
     formattedError ext e0 None = Error EmptyString).
Proof.
  intros Hnone Hhttp. split; [|split].
  - rewrite validate_unfold, ensureMetadata_unfold, Hnone. simpl.
    by rewrite Hhttp.
  - apply formattedError_is_Error.
  - intros Hinst Hstring. destruct e0; try done. by destruct (Hstring s0).
Qed.

Lemma discovery_failure_propagates_witness :
  fst (validate Fixture.extDown "valid.jwt"
         (Fixture.fresh Fixture.baseValidatorOptions))
  = Throw (Error "Network Error")
  ∧ metadata (this (snd (validate Fixture.extDown "valid.jwt"
                           (Fixture.fresh Fixture.baseValidatorOptions))))
    = None.
Proof.
  destruct (discovery_failure_propagates Fixture.extDown "valid.jwt"
              (Fixture.fresh Fixture.baseValidatorOptions)
              (AxiosError "Network Error" None None))
    as (Hrun & _); [reflexivity..|].
  rewrite Hrun. split; reflexivity.
Defined.

(** X9. When the discovery document is loaded, the token decodes, the
    lookup of its [kid] in the cache returns [undefined] and fetching the
    key set fails, [validate] throws a plain
    [Error] built from the failure after that one fetch; the verifier is not
    called and neither the validator nor the cache changes, so the failure
    is not remembered.  A thrown value that is neither an [Error] nor a
    string gives the message "Error connecting to discovery keys
    endpoint". *)
Theorem key_fetch_failure_propagates (ext : Externals) (token : string)
    (s : State) (jwt : AzureAdToken) (k : string) (e0 : Thrown) :
  let url := keysUrl (this s) (applicationIdOf (payload jwt)) in
  is_Some (metadata (this s)) →
  jwt_decode ext token = Some jwt →
  header_kid (header jwt) = Some k → k ≠ EmptyString →
  SimpleCache.getItem (cache s) k = Return None →
  http_keys ext (trace s) url = Throw e0 →
  validate ext token s
  = (Throw (formattedError ext e0
              (Some "Error connecting to discovery keys endpoint")),
     {| this := this s; cache := cache s;
        trace := (trace s ++ [EvGet (Some url)])%list |})
  ∧ (∃ message,
       formattedError ext e0
         (Some "Error connecting to discovery keys endpoint")
       = Error message)
  ∧ (instanceofError e0 = false → (∀ text, e0 ≠ ThrownString text) →
     formattedError ext e0
       (Some "Error connecting to discovery keys endpoint")
     = Error "Error connecting to discovery keys endpoint").
Proof.
  intros url Hloaded Hdecode Hk Hne Hc Hhttp. split; [|split].
  - rewrite validate_unfold, (ensureMetadata_loaded ext s Hloaded), Hdecode.
    rewrite (getPublicKey_miss ext jwt k s Hk Hne Hc). simpl.
    unfold url, applicationIdOf in Hhttp. by rewrite Hhttp.
  - apply formattedError_is_Error.
  - intros Hinst Hstring. destruct e0; try done. by destruct (Hstring s0).
Qed.

Lemma key_fetch_failure_propagates_witness :
  validate MoreFixtures.extKeysDown "valid.jwt"
    (Fixture.loaded Fixture.baseValidatorOptions)
  = (Throw (Error "{}"),
     {| this := this (Fixture.loaded Fixture.baseValidatorOptions);
        cache := ∅;
        trace := [EvGet (Some ("/keys?appid=" +:+ Fixture.fx_appid))] |}).
Proof.
  destruct (key_fetch_failure_propagates MoreFixtures.extKeysDown "valid.jwt"
              (Fixture.loaded Fixture.baseValidatorOptions)
              Fixture.validToken Fixture.fx_kid
              (AxiosError "Request failed with status code 503"
                 (Some {| data := "unavailable"; status := 503 |}) None))
    as (Hrun & _);
    [by eexists | reflexivity | reflexivity | discriminate
    | reflexivity | reflexivity |].
  exact Hrun.
Defined.

(** X10. With the discovery document loaded, a token that declares an
    algorithm, and a lookup of the token's [kid] in the cache that returns a
    key, [validate] makes no network fetch at all: its only external call
    is the one call of [verify], with the cached key, and neither the
    validator nor the cache changes. *)
Theorem cached_key_validate_offline (ext : Externals) (token : string)
    (s s' : State) (jwt : AzureAdToken) (k declared : string)
    (key : AzureAdKeyValue)
    (r : Completion AzureAdTokenValidationResult) :
  is_Some (metadata (this s)) →
  jwt_decode ext token = Some jwt →
  alg (header jwt) = Some declared →
  header_kid (header jwt) = Some k → k ≠ EmptyString →
  SimpleCache.getItem (cache s) k = Return (Some key) →
  validate ext token s = (r, s') →
  this s' = this s ∧ cache s' = cache s
  ∧ trace s'
    = (trace s
       ++ [EvVerify token (secretOrPublicKey declared key)
             (verifyOptionsOf (this s) declared)])%list
  ∧ fetch_count (trace s') = fetch_count (trace s).
Proof.
  intros Hloaded Hdecode Halg Hk Hne Hc.
  rewrite validate_unfold, (ensureMetadata_loaded ext s Hloaded), Hdecode.
  rewrite (getPublicKey_hit ext jwt k key s Hk Hne Hc), Halg. simpl.
  pose proof (fetch_count_snoc_verify (trace s) token
                (secretOrPublicKey declared key)
                (verifyOptionsOf (this s) declared))
    as Hcount.
  destruct (jwt_verify ext _ _ _ _) as [error|].
  - destruct (instanceofJsonWebTokenError error); intros [= <- <-];
      simpl; by rewrite Hcount.
  - destruct (sv_isValid _); intros [= <- <-]; simpl; by rewrite Hcount.
Qed.

Lemma cached_key_validate_offline_witness :
  trace (snd (validate Fixture.ext "emptyscope.jwt" MoreFixtures.warm))
  = (trace MoreFixtures.warm
     ++ [EvVerify "emptyscope.jwt" (Some Fixture.secret)
           (verifyOptionsOf (this MoreFixtures.warm) "HS256")])%list.
Proof.
  destruct (cached_key_validate_offline Fixture.ext "emptyscope.jwt"
              MoreFixtures.warm
              (snd (validate Fixture.ext "emptyscope.jwt" MoreFixtures.warm))
              Fixture.emptyScopeToken Fixture.fx_kid "HS256" Fixture.fx_key
              (fst (validate Fixture.ext "emptyscope.jwt" MoreFixtures.warm)))
    as (_ & _ & Htrace & _);
    [by eexists | reflexivity | reflexivity | reflexivity | discriminate
    | vm_compute; reflexivity | vm_compute; reflexivity |].
  exact Htrace.
Defined.

(** ** What one call of [validate] does to the process *)

Lemma validate_cache (ext : Externals) (token : string) (s s' : State)
    (r : Completion AzureAdTokenValidationResult) :
  validate ext token s = (r, s') →
  cache s' = cache s
  ∨ ∃ k key history url d,
      k ≠ EmptyString ∧ cache s !! k = None
      ∧ http_keys ext history url = Return d ∧ last (keys d) = Some key
      ∧ cache s' = <[k := key]> (cache s).
Proof.
  intros (c0 & s0 & Hmeta & Hstop)%validate_stops.
  apply ensureMetadata_step in Hmeta as (Hc0 & _ & _).
  destruct Hstop as [-> | (jwt & c1 & s1 & _ & _ & Hkey & Hstop)];
    [by left|].
  apply getPublicKey_step in Hkey as (_ & Hkey).
  assert (cache s' = cache s1) as ->.
  { by destruct Hstop as [-> | (publicKey & declared & _ & _ & ->)]. }
  destruct Hkey as [[_ Hc1] | (k & _ & Hne & Hnone & _ & Hc1)].
  - left. congruence.
  - destruct Hc1 as [Hc1 | (d & key & Hhttp & Hlast & Hc1)].
    + left. congruence.
    + right.
      exists k, key, (trace s0),
        (keysUrl (this s0) (applicationIdOf (payload jwt))), d.
      rewrite <- Hc0. by repeat split.
Qed.

Lemma validate_this (ext : Externals) (token : string) (s s' : State)
    (r : Completion AzureAdTokenValidationResult) :
  validate ext token s = (r, s') →
  options (this s') = options (this s)
  ∧ (this s' = this s
     ∨ (metadata (this s) = None
        ∧ ∃ d, http_metadata ext (trace s)
                 (metadataDocumentUri (options (this s))) = Return d
               ∧ metadata (this s') = Some d)).
Proof.
  intros (c0 & s0 & Hmeta & Hstop)%validate_stops.
  apply ensureMetadata_step in Hmeta as (_ & Hopts & Hmeta).
  assert (this s' = this s0) as ->.
  { destruct Hstop as [-> | (jwt & c1 & s1 & _ & _ & Hkey & Hstop)];
      [done|].
    apply getPublicKey_step in Hkey as (Hthis & _).
    by destruct Hstop as [-> | (publicKey & declared & _ & _ & ->)]. }
  split; [done|].
  destruct Hmeta as [(_ & -> & _) | (Hnone & _ & [(d & Hhttp & _ & Hd)
                                               | (e0 & _ & _ & Hthis)])].
  - by left.
  - right. eauto.
  - by left.
Qed.

Lemma validate_trace (ext : Externals) (token : string) (s s' : State)
    (r : Completion AzureAdTokenValidationResult) :
  validate ext token s = (r, s') →
  ∃ discovery keyset verifies,
    trace s' = (trace s ++ (discovery ++ keyset) ++ verifies)%list
    ∧ (discovery = []
       ∨ (metadata (this s) = None
          ∧ discovery = [EvGet (metadataDocumentUri (options (this s)))]))
    ∧ (keyset = [] ∨ ∃ url, keyset = [EvGet (Some url)])
    ∧ (verifies = [] ∨ ∃ key vopts, verifies = [EvVerify token key vopts]).
Proof.
  intros (c0 & s0 & Hmeta & Hstop)%validate_stops.
  apply ensureMetadata_step in Hmeta as (_ & _ & Hmeta).
  assert (∃ discovery,
            trace s0 = (trace s ++ discovery)%list
            ∧ (discovery = []
               ∨ (metadata (this s) = None
                  ∧ discovery
                    = [EvGet (metadataDocumentUri (options (this s)))])))
    as (discovery & Ht0 & Hdiscovery).
  { destruct Hmeta as [(_ & -> & _) | (Hnone & Ht0 & _)].
    - exists []. rewrite app_nil_r. auto.
    - eauto. }
  destruct Hstop as [-> | (jwt & c1 & s1 & _ & _ & Hkey & Hstop)].
  { exists discovery, [], []. rewrite !app_nil_r. auto. }
  apply getPublicKey_step in Hkey as (_ & Hkey).
  assert (∃ keyset,
            trace s1 = (trace s0 ++ keyset)%list
            ∧ (keyset = [] ∨ ∃ url, keyset = [EvGet (Some url)]))
    as (keyset & Ht1 & Hkeyset).
  { destruct Hkey as [[Ht1 _] | (k & _ & _ & _ & Ht1 & _)].
    - exists []. rewrite app_nil_r. auto.
    - eauto. }
  destruct Hstop as [-> | (publicKey & declared & _ & _ & ->)].
  - exists discovery, keyset, []. rewrite Ht1, Ht0, !app_nil_r, <- app_assoc.
    auto.
  - exists discovery, keyset, [EvVerify token
                                 (secretOrPublicKey declared publicKey)
                                 (verifyOptionsOf (this s1) declared)].
    simpl. rewrite Ht1, Ht0, <- !app_assoc. split; [done|]. eauto 6.
Qed.

Lemma constructor_step (opts : AzureAdTokenValidationOptions) (s s' : State)
    (c : Completion unit) :
  constructor opts s = (c, s') → cache s' = cache s ∧ trace s' = trace s.
Proof.
  unfold constructor. run.
  by destruct (Js.truthy (tenantId opts)), (Js.truthy (audience opts));
    intros [= <- <-].
Qed.

(** X11. [validate] never removes or replaces an entry of the shared cache:
    every identifier cached before the call holds the same key after it,
    whatever the provider publishes in between; and a call adds at most one
    entry. *)
Theorem cache_entries_are_never_replaced (ext : Externals) (token : string)
    (s s' : State) (r : Completion AzureAdTokenValidationResult) :
  validate ext token s = (r, s') →
  (∀ k key, cache s !! k = Some key → cache s' !! k = Some key)
  ∧ (size (cache s') ≤ S (size (cache s)))%nat.
Proof.
  intros [-> | (k & key & _ & _ & d & _ & Hnone & _ & _ & ->)]%validate_cache.
  - split; [done|lia].
  - split.
    + intros k' key' Hk'. rewrite lookup_insert_ne; [done|congruence].
    + by rewrite map_size_insert_None.
Qed.

Lemma cache_entries_are_never_replaced_witness :
  cache (snd (validate Fixture.ext3 "k1.jwt" MoreFixtures.warm))
  !! Fixture.fx_kid
  = Some Fixture.fx_key.
Proof.
  destruct (cache_entries_are_never_replaced Fixture.ext3 "k1.jwt"
              MoreFixtures.warm
              (snd (validate Fixture.ext3 "k1.jwt" MoreFixtures.warm))
              (fst (validate Fixture.ext3 "k1.jwt" MoreFixtures.warm)))
    as [Hkept _]; [vm_compute; reflexivity|].
  apply Hkept. vm_compute. reflexivity.
Defined.

(** X12. [validate] never changes the options of the validator; once the
    validator has a discovery document, a call leaves the validator exactly
    as it was (the document is never replaced); a validator without one
    either stays as it was or gets the document the discovery endpoint
    answered. *)
Theorem validate_keeps_configuration (ext : Externals) (token : string)
    (s s' : State) (r : Completion AzureAdTokenValidationResult) :
  validate ext token s = (r, s') →
  options (this s') = options (this s)
  ∧ (is_Some (metadata (this s)) → this s' = this s)
  ∧ (metadata (this s) = None →
     this s' = this s
     ∨ ∃ document,
         http_metadata ext (trace s)
           (metadataDocumentUri (options (this s))) = Return document
         ∧ this s' = {| options := options (this s);
                        metadata := Some document |}).
Proof.
  intros (Hopts & Hthis)%validate_this. split; [done|]. split.
  - intros [document Hdoc]. destruct Hthis as [?|[? _]]; congruence.
  - intros _. destruct Hthis as [?|(_ & document & Hhttp & Hdoc)]; [by left|].
    right. exists document. split; [done|].
    destruct (this s') as [o m]. simpl in *. congruence.
Qed.

Lemma validate_keeps_configuration_witness :
  this (snd (validate Fixture.ext3 "k1.jwt" MoreFixtures.warm))
  = this MoreFixtures.warm.
Proof.
  destruct (validate_keeps_configuration Fixture.ext3 "k1.jwt"
              MoreFixtures.warm
              (snd (validate Fixture.ext3 "k1.jwt" MoreFixtures.warm))
              (fst (validate Fixture.ext3 "k1.jwt" MoreFixtures.warm)))
    as (_ & Hkept & _); [vm_compute; reflexivity|].
  apply Hkept. by eexists.
Defined.

(** X13. One call of [validate] makes at most one fetch of the discovery
    document (none when the validator already has it), then at most one
    fetch of the key set, then at most one call of [verify], in this order
    and nothing else: nothing is retried. *)
Theorem validate_external_calls (ext : Externals) (token : string)
    (s s' : State) (r : Completion AzureAdTokenValidationResult) :
  validate ext token s = (r, s') →
  ∃ discovery keyset verifies,
    trace s' = (trace s ++ (discovery ++ keyset) ++ verifies)%list
    ∧ (discovery = []
       ∨ (metadata (this s) = None
          ∧ discovery = [EvGet (metadataDocumentUri (options (this s)))]))
    ∧ (keyset = [] ∨ ∃ url, keyset = [EvGet (Some url)])
    ∧ (verifies = [] ∨ ∃ key vopts, verifies = [EvVerify token key vopts])
    ∧ (fetch_count (trace s') ≤ fetch_count (trace s) + 2)%nat.
Proof.
  intros (discovery & keyset & verifies & Htrace & Hd & Hk & Hv)%validate_trace.
  exists discovery, keyset, verifies. do 4 (split; [done|]).
  rewrite Htrace, !fetch_count_app.
  assert (fetch_count discovery ≤ 1)%nat
    by (destruct Hd as [->|[_ ->]]; unfold fetch_count; simpl; lia).
  assert (fetch_count keyset ≤ 1)%nat
    by (destruct Hk as [->|[? ->]]; unfold fetch_count; simpl; lia).
  assert (fetch_count verifies = 0)%nat
    by (by destruct Hv as [->|(? & ? & ->)]).
  lia.
Qed.

Lemma validate_external_calls_witness :
  (fetch_count
     (trace (snd (validate Fixture.ext "valid.jwt"
                    (Fixture.fresh Fixture.baseValidatorOptions))))
   ≤ 2)%nat.
Proof.
  destruct (validate_external_calls Fixture.ext "valid.jwt"
              (Fixture.fresh Fixture.baseValidatorOptions)
              (snd (validate Fixture.ext "valid.jwt"
                      (Fixture.fresh Fixture.baseValidatorOptions)))
              (fst (validate Fixture.ext "valid.jwt"
                      (Fixture.fresh Fixture.baseValidatorOptions))))
    as (_ & _ & _ & _ & _ & _ & _ & Hbound); [vm_compute; reflexivity|].
  exact Hbound.
Defined.

(** ** Verdicts *)

(** A resolved key is the entry of the cache under the token's [kid] when
    [getPublicKey] returns. *)
Lemma getPublicKey_resolved (ext : Externals) (jwt : AzureAdToken)
    (s s1 : State) (publicKey : AzureAdKeyValue) :
  getPublicKey ext jwt s = (Return (Some publicKey), s1) →
  ∃ k, header_kid (header jwt) = Some k ∧ k ≠ EmptyString
       ∧ cache s1 !! k = Some publicKey.
Proof.
  destruct (getPublicKey_cases ext jwt s)
    as [H | [(k & e & _ & _ & _ & H) | [(k & key & Hk & Hne & Hc & H)
                                       | (k & Hk & Hne & Hc)]]].
  - by rewrite H.
  - by rewrite H.
  - rewrite H. intros [= <- <-]. apply getItem_Return in Hc as [_ Hc]. eauto.
  - rewrite (getPublicKey_miss ext jwt k s Hk Hne Hc). simpl.
    destruct (http_keys ext (trace s) _) as [d|e0]; [|done].
    intros [= [_ Hstored]%getItem_Return <-]. exists k. simpl. eauto.
Qed.

Lemma validateAdditionalClaims_valid (tokenPayload : AzureAdTokenPayload)
    (opts : AzureAdTokenValidationOptions) :
  sv_isValid (validateAdditionalClaims tokenPayload opts) = true →
  rule_validate (tenantRule (tenantId opts)) tokenPayload = true
  ∧ rule_validate (applicationRule (allowedApplicationIds opts)) tokenPayload
    = true
  ∧ rule_validate (scopesRule (requiredScopes opts)) tokenPayload = true.
Proof.
  unfold validateAdditionalClaims. cbn [validateRules].
  destruct (rule_validate (tenantRule _) tokenPayload); [|done].
  destruct (rule_validate (applicationRule _) tokenPayload); [|done].
  by destruct (rule_validate (scopesRule _) tokenPayload).
Qed.

Lemma tenantRule_true (tenant : option string)
    (tokenPayload : AzureAdTokenPayload) :
  rule_validate (tenantRule tenant) tokenPayload = true →
  ∃ t, t ≠ EmptyString ∧ tid tokenPayload = Some t ∧ tenant = Some t.
Proof.
  simpl. intros [(t & Ht & Hne)%truthy_Some Heq%strict_eq_true]%andb_true_iff.
  exists t. repeat split; congruence.
Qed.

(** X14. Every result [validate] returns carries the token it was given,
    and carries the decoded token whenever the token decodes, whether the
    verdict is valid or not. *)
Theorem result_carries_token (ext : Externals) (token : string)
    (s s' : State) (result : AzureAdTokenValidationResult) :
  validate ext token s = (Return result, s') →
  accessToken result = token
  ∧ decodedAccessToken result = jwt_decode ext token.
Proof.
  rewrite validate_unfold.
  destruct (ensureMetadata ext s) as [[[]|e] s0]; [|done].
  destruct (jwt_decode ext token) as [jwt|]; [|by intros [= <- <-]].
  destruct (getPublicKey ext jwt s0) as [[[publicKey|]|e] s1];
    [|by intros [= <- <-]|done].
  destruct (alg (header jwt)) as [declared|]; [|done].
  simpl. destruct (jwt_verify ext _ _ _ _) as [error|].
  - by destruct (instanceofJsonWebTokenError error); intros [= <- <-].
  - by destruct (sv_isValid _); intros [= <- <-].
Qed.

Lemma result_carries_token_witness :
  decodedAccessToken
    {| accessToken := "emptyscope.jwt";
       decodedAccessToken := Some Fixture.emptyScopeToken;
       isValid := false;
       validationMessage := Some "required scopes missing" |}
  = Some Fixture.emptyScopeToken.
Proof.
  apply (result_carries_token Fixture.ext "emptyscope.jwt"
           (Fixture.fresh Fixture.scopedValidatorOptions)
           (snd (validate Fixture.ext "emptyscope.jwt"
                   (Fixture.fresh Fixture.scopedValidatorOptions)))).
  vm_compute. reflexivity.
Defined.

(** X15. A valid verdict is never given without the checks: when [validate]
    returns [isValid = true], the token decoded and declares an algorithm, a
    key was resolved and is the cache entry under the token's [kid],
    [verify] was called on the token with that key's material and the pinned
    options and returned without throwing, the payload's [tid] is the
    configured tenant, and the application and scope rules accept the
    payload; and the result has no message. *)
Theorem valid_verdict_sound (ext : Externals) (token : string)
    (s s' : State) (result : AzureAdTokenValidationResult) :
  validate ext token s = (Return result, s') →
  isValid result = true →
  validationMessage result = None
  ∧ ∃ jwt publicKey s0 s1 k declared,
      ensureMetadata ext s = (Return tt, s0)
      ∧ jwt_decode ext token = Some jwt
      ∧ getPublicKey ext jwt s0 = (Return (Some publicKey), s1)
      ∧ header_kid (header jwt) = Some k
      ∧ cache s' !! k = Some publicKey
      ∧ alg (header jwt) = Some declared
      ∧ jwt_verify ext (trace s1) token
          (secretOrPublicKey declared publicKey)
          (verifyOptionsOf (this s) declared) = None
      ∧ EvVerify token (secretOrPublicKey declared publicKey)
          (verifyOptionsOf (this s) declared) ∈ trace s'
      ∧ (∃ t, t ≠ EmptyString ∧ tid (payload jwt) = Some t
              ∧ tenantId (options (this s)) = Some t)
      ∧ rule_validate
          (applicationRule (allowedApplicationIds (options (this s))))
          (payload jwt) = true
      ∧ rule_validate (scopesRule (requiredScopes (options (this s))))
          (payload jwt) = true.
Proof.
  rewrite validate_unfold.
  destruct (ensureMetadata ext s) as [[[]|e] s0] eqn:Hmeta; [|done].
  destruct (jwt_decode ext token) as [jwt|]; [|by intros [= <- <-]].
  destruct (getPublicKey ext jwt s0) as [[[publicKey|]|e] s1] eqn:Hkey;
    [|by intros [= <- <-]|done].
  pose proof Hmeta as (_ & Hopts0 & _)%ensureMetadata_step.
  pose proof Hkey as (Hthis1 & _)%getPublicKey_step.
  pose proof Hkey as (k & Hk & _ & Hcached)%getPublicKey_resolved.
  destruct (alg (header jwt)) as [declared|] eqn:Halg; [|done].
  assert (verifyOptionsOf (this s1) declared
          = verifyOptionsOf (this s) declared) as Hvo.
  { unfold verifyOptionsOf. by rewrite Hthis1, Hopts0. }
  cbv zeta. rewrite Hvo, Hthis1, Hopts0.
  destruct (jwt_verify ext _ _ _ _) as [error|] eqn:Hverify.
  { by destruct (instanceofJsonWebTokenError error); intros [= <- <-]. }
  destruct (sv_isValid _) eqn:Hvalid; [|by intros [= <- <-]].
  apply validateAdditionalClaims_valid in Hvalid
    as (Htenant%tenantRule_true & Happ & Hscopes).
  intros [= <- <-] _. split; [reflexivity|].
  exists jwt, publicKey, s0, s1, k, declared.
  split; [done|]. split; [done|]. split; [done|].
  split; [exact Hk|]. split; [exact Hcached|]. split; [exact Halg|].
  split; [exact Hverify|].
  split; [cbn [trace]; apply elem_of_app; right; by left|].
  split; [exact Htenant|]. split; [exact Happ|exact Hscopes].
Qed.

Lemma valid_verdict_sound_witness :
  ∃ t, t ≠ EmptyString ∧ tid (payload Fixture.validToken) = Some t
       ∧ tenantId Fixture.baseValidatorOptions = Some t.
Proof.
  destruct (valid_verdict_sound Fixture.ext "valid.jwt"
              (Fixture.fresh Fixture.baseValidatorOptions)
              (snd (validate Fixture.ext "valid.jwt"
                      (Fixture.fresh Fixture.baseValidatorOptions)))
              {| accessToken := "valid.jwt";
                 decodedAccessToken := Some Fixture.validToken;
                 isValid := true; validationMessage := None |})
    as (_ & jwt & publicKey & s0 & s1 & k & declared & _ & Hdecode & _ & _
        & _ & _ & _ & _ & Htenant & _);
    [vm_compute; reflexivity | reflexivity |].
  injection Hdecode as <-. exact Htenant.
Defined.

(** X16. Conversely, when the discovery document is there, the token
    decodes and declares an algorithm, a key is resolved, [verify] returns
    without throwing and the three rules accept the payload, [validate]
    returns the valid verdict: the token, the decoded token,
    [isValid = true] and no message. *)
Theorem conforming_token_accepted (ext : Externals) (token : string)
    (s s0 s1 : State) (jwt : AzureAdToken) (publicKey : AzureAdKeyValue)
    (declared : string) :
  ensureMetadata ext s = (Return tt, s0) →
  jwt_decode ext token = Some jwt →
  getPublicKey ext jwt s0 = (Return (Some publicKey), s1) →
  alg (header jwt) = Some declared →
  jwt_verify ext (trace s1) token (secretOrPublicKey declared publicKey)
    (verifyOptionsOf (this s) declared) = None →
  rule_validate (tenantRule (tenantId (options (this s)))) (payload jwt)
  = true →
  rule_validate (applicationRule (allowedApplicationIds (options (this s))))
    (payload jwt) = true →
  rule_validate (scopesRule (requiredScopes (options (this s))))
    (payload jwt) = true →
  fst (validate ext token s)
  = Return {| accessToken := token; decodedAccessToken := Some jwt;
              isValid := true; validationMessage := None |}.
Proof.
  intros Hmeta Hdecode Hkey Halg Hverify Htenant Happ Hscopes.
  rewrite validate_unfold, Hmeta, Hdecode, Hkey, Halg.
  apply ensureMetadata_step in Hmeta as (_ & Hopts0 & _).
  apply getPublicKey_step in Hkey as (Hthis1 & _).
  assert (verifyOptionsOf (this s1) declared
          = verifyOptionsOf (this s) declared) as Hvo.
  { unfold verifyOptionsOf. by rewrite Hthis1, Hopts0. }
  simpl. rewrite Hvo, Hverify, Hthis1, Hopts0.
  unfold validateAdditionalClaims. cbn [validateRules].
  by rewrite Htenant, Happ, Hscopes.
Qed.

Lemma conforming_token_accepted_witness :
  fst (validate MoreFixtures.ext "azp.jwt" MoreFixtures.warm)
  = Return {| accessToken := "azp.jwt";
              decodedAccessToken := Some MoreFixtures.azpToken;
              isValid := true; validationMessage := None |}.
Proof.
  apply (conforming_token_accepted MoreFixtures.ext "azp.jwt"
           MoreFixtures.warm MoreFixtures.warm MoreFixtures.warm
           MoreFixtures.azpToken Fixture.fx_key "HS256");
    vm_compute; reflexivity.
Defined.

(** ** The shared cache over the life of a process *)

(** X17. In every state a process can reach, each entry of the shared cache
    sits under a non-empty key identifier and holds a key that the key
    endpoint published: the last key of one of its answers. *)
Theorem cached_keys_come_from_provider (ext : Externals) (s : State) :
  reachable ext s →
  ∀ k key,
    cache s !! k = Some key →
    k ≠ EmptyString
    ∧ ∃ history url d,
        http_keys ext history url = Return d ∧ last (keys d) = Some key.
Proof.
  induction 1 as [this_ | s s' opts Hreach IH Hnew | s s' token r Hreach IH Hrun].
  - intros k key Hk. simpl in Hk. by rewrite lookup_empty in Hk.
  - apply constructor_step in Hnew as [-> _]. exact IH.
  - apply validate_cache in Hrun
      as [-> | (k0 & key0 & history & url & d & Hne & _ & Hhttp & Hlast & ->)];
      [exact IH|].
    intros k key. destruct (decide (k0 = k)) as [<-|Hother].
    + rewrite lookup_insert_eq. intros [= <-]. split; [done|]. eauto.
    + rewrite lookup_insert_ne by done. apply IH.
Qed.

Lemma cached_keys_come_from_provider_witness :
  Fixture.fx_kid ≠ EmptyString
  ∧ ∃ history url d,
      http_keys Fixture.ext history url = Return d
      ∧ last (keys d) = Some Fixture.fx_key.
Proof.
  apply (cached_keys_come_from_provider Fixture.ext MoreFixtures.warm).
  - apply (reachable_validate Fixture.ext
             (Fixture.fresh Fixture.baseValidatorOptions) MoreFixtures.warm
             "valid.jwt"
             (fst (validate Fixture.ext "valid.jwt"
                     (Fixture.fresh Fixture.baseValidatorOptions)))).
    + apply (reachable_start Fixture.ext
               {| options := Fixture.baseValidatorOptions;
                  metadata := None |}).
    + vm_compute. reflexivity.
  - vm_compute. reflexivity.
Defined.

(** ** Every way [validate] can end *)



(** ** Cache hits, and the shadowed cache *)

(** X19. In a state whose cache obeys the invariant of the shared cache,
    when the lookup of the token's [kid] returns a key, [getPublicKey]
    returns that key with no network fetch (the state, trace included, is
    unchanged); and once a resolution has returned a key, resolving the same
    identifier again returns that key and performs no fetch. *)
Theorem cache_hit_no_fetch (ext : Externals) (jwt : AzureAdToken) (s : State) :
  cache_wf (cache s) →
  (∀ k key,
     header_kid (header jwt) = Some k →
     SimpleCache.getItem (cache s) k = Return (Some key) →
     getPublicKey ext jwt s = (Return (Some key), s)
     ∧ fetch_count (trace (snd (getPublicKey ext jwt s)))
       = fetch_count (trace s))
  ∧ (∀ key s1 jwt',
       getPublicKey ext jwt s = (Return (Some key), s1) →
       header_kid (header jwt') = header_kid (header jwt) →
       getPublicKey ext jwt' s1 = (Return (Some key), s1)
       ∧ fetch_count (trace (snd (getPublicKey ext jwt' s1)))
         = fetch_count (trace s1)).
Proof.
  intros Hwf. split.
  - intros k key Hk Hc.
    assert (k ≠ EmptyString) as Hne.
    { intros ->. apply getItem_Return in Hc as [_ Hc]. congruence. }
    rewrite (getPublicKey_hit ext jwt k key s Hk Hne Hc). done.
  - intros key s1 jwt' Hfirst Hsame.
    assert (getPublicKey ext jwt' s1 = (Return (Some key), s1)) as Hagain.
    { destruct (getPublicKey_cases ext jwt s)
        as [H | [(k & e & _ & _ & _ & H) | [(k & key' & Hk & Hne & Hc & H)
                                           | (k & Hk & Hne & Hc)]]].
      - congruence.
      - congruence.
      - rewrite H in Hfirst. injection Hfirst as <- <-.
        apply getPublicKey_hit with k; congruence.
      - rewrite (getPublicKey_miss ext jwt k s Hk Hne Hc) in Hfirst.
        simpl in Hfirst.
        destruct (http_keys ext (trace s) _) as [d|e0]; [|done].
        injection Hfirst as Hlookup <-.
        apply getPublicKey_hit with k; [congruence|done|exact Hlookup]. }
    by rewrite Hagain.
Qed.

Lemma cache_hit_no_fetch_witness :
  let s1 := snd (getPublicKey Fixture.ext Fixture.validToken
                   (Fixture.loaded Fixture.baseValidatorOptions)) in
  getPublicKey Fixture.ext Fixture.validToken s1
  = (Return (Some Fixture.fx_key), s1)
  ∧ fetch_count (trace (snd (getPublicKey Fixture.ext Fixture.validToken s1)))
    = fetch_count (trace s1).
Proof.
  intros s1.
  destruct (cache_hit_no_fetch Fixture.ext Fixture.validToken s1)
    as [Hhit _]; [vm_compute; reflexivity|].
  apply (Hhit Fixture.fx_kid Fixture.fx_key);
    [reflexivity | vm_compute; reflexivity].
Defined.

(** X20. Once the cache object has an own property [hasOwnProperty], it
    keeps it, and every resolution of a token with a non-empty [kid] throws
    a [TypeError] without any fetch; so does every [validate] of such a
    token that gets past the metadata stage and decodes.  One token whose
    [kid] is "hasOwnProperty", answered by the key endpoint with a key,
    brings the cache into this state. *)
Theorem shadowed_cache_throws_for_every_kid (ext : Externals)
    (jwt : AzureAdToken) (s : State) :
  let typeError :=
    TypeError "this.memoryCache.hasOwnProperty is not a function" in
  (is_Some (cache s !! "hasOwnProperty") →
   Js.truthy (header_kid (header jwt)) = true →
   getPublicKey ext jwt s = (Throw typeError, s)
   ∧ ∀ token s0,
       ensureMetadata ext s = (Return tt, s0) →
       jwt_decode ext token = Some jwt →
       validate ext token s = (Throw typeError, s0)
       ∧ is_Some (cache s0 !! "hasOwnProperty"))
  ∧ (∀ d key,
       header_kid (header jwt) = Some "hasOwnProperty" →
       SimpleCache.getItem (cache s) "hasOwnProperty" = Return None →
       http_keys ext (trace s)
         (keysUrl (this s) (applicationIdOf (payload jwt))) = Return d →
       last (keys d) = Some key →
       fst (getPublicKey ext jwt s) = Throw typeError
       ∧ cache (snd (getPublicKey ext jwt s)) !! "hasOwnProperty" = Some key).
Proof.
  intros typeError. split.
  - intros Hshadowed (k & Hk & Hne)%truthy_Some.
    assert (∀ s', cache s' = cache s →
              getPublicKey ext jwt s' = (Throw typeError, s')) as Hthrows.
    { intros s' Hsame. apply getPublicKey_shadowed with k; [done..|].
      apply getItem_Throw. by rewrite Hsame. }
    split; [by apply Hthrows|].
    intros token s0 Hmeta Hdecode. rewrite validate_unfold, Hmeta, Hdecode.
    apply ensureMetadata_step in Hmeta as (Hcache & _).
    rewrite (Hthrows s0 Hcache). by rewrite Hcache.
  - intros d key Hk Hc Hhttp Hlast.
    rewrite (getPublicKey_miss ext jwt "hasOwnProperty" s Hk) by done.
    unfold applicationIdOf in Hhttp. simpl. rewrite Hhttp, Hlast. simpl.
    split; [|apply lookup_insert_eq].
    apply getItem_Throw. split; [|done]. rewrite lookup_insert_eq.
    by eexists.
Qed.

Lemma shadowed_cache_throws_for_every_kid_witness :
  let s1 := snd (validate MoreFixtures.ext "shadow.jwt" MoreFixtures.warm) in
  validate MoreFixtures.ext "valid.jwt" s1
  = (Throw (TypeError "this.memoryCache.hasOwnProperty is not a function"),
     s1).
Proof.
  intros s1.
  destruct (shadowed_cache_throws_for_every_kid MoreFixtures.ext
              Fixture.validToken s1) as [Hshadowed _].
  destruct Hshadowed as [_ Hvalidate];
    [vm_compute; by eexists | reflexivity |].
  apply (Hvalidate "valid.jwt" s1); vm_compute; reflexivity.
Defined.
